(** * Investment prediction page: a model of [main2.py]

    The development follows the forecast-request pipeline of the page:
    [fetch_mutual_fund_data] (provider reply, frame construction, cleaning),
    the construction and fitting of the forecasting model, the future frame
    and the 2024 filter of the forecast.

    The third-party libraries are modelled as far as the script depends on
    them: frames are a list of column labels and a list of rows, the column
    conversions of pandas are operations of the class [Pandas], the network
    and the clock are the record [World], Prophet is represented by its
    constructor arguments, [fit] and [make_future_dataframe], and its
    numerical side by the class [Engine].  The reply of the provider is a
    JSON object whose members are scalars or arrays of objects with scalar
    members. *)

From Stdlib Require Import ZArith List String Ascii Bool Lia Sorted DecimalString.
Import ListNotations.
Open Scope string_scope.
Open Scope list_scope.
Open Scope Z_scope.

Set Implicit Arguments.

(** ** Python exceptions and the [try]/[except Exception] discipline *)

(** Only subclasses of [Exception] are represented: these are the ones the
    handlers of the script catch. *)
Inductive PyExn : Type :=
| KeyError (key : string)
| TypeError (msg : string)
| ValueError (msg : string)
| LibraryError (cls : string) (msg : string).

(** [repr] of a string without quote characters. *)
Definition repr_str (s : string) : string := ("'" ++ s ++ "'")%string.

(** [str(e)]. *)
Definition str_exn (e : PyExn) : string :=
  match e with
  | KeyError k => repr_str k
  | TypeError m => m
  | ValueError m => m
  | LibraryError _ m => m
  end.

(** A computation that returns or raises. *)
Definition Py (A : Type) : Type := (PyExn + A)%type.

Definition ret {A : Type} (a : A) : Py A := inr a.
Definition raise {A : Type} (e : PyExn) : Py A := inl e.
Definition bind {A B : Type} (c : Py A) (k : A -> Py B) : Py B :=
  match c with
  | inl e => inl e
  | inr a => k a
  end.

Notation "x <- c ;; k" := (bind c (fun x => k))
  (at level 61, c at next level, right associativity).

(** ** Numbers, JSON scalars and cells *)

(** A decimal literal [digits * 10^-scale], as written in the script. *)
Record Decimal : Type := { digits : Z; scale : nat }.

(** Numeric values: what the JSON decoder yields for a number token and what
    a float column holds. *)
Inductive Number : Type :=
| Int (n : Z)
| Real (d : Decimal)
| Infinity (negative : bool)
| NaN.

Definition is_nan (x : Number) : bool :=
  match x with
  | NaN => true
  | _ => false
  end.

Inductive Scalar : Type :=
| SNull
| SBool (b : bool)
| SNum (x : Number)
| SStr (s : string).

(** A decoded JSON object with scalar members, in member order. *)
Definition RawRecord : Type := list (string * Scalar).

(** The members of the reply body: a scalar, or an array of records. *)
Inductive Value : Type :=
| VScalar (s : Scalar)
| VRecords (recs : list RawRecord).

(** Nanoseconds since 1970-01-01T00:00, the payload of a pandas timestamp. *)
Definition Timestamp : Type := Z.

Inductive Cell : Type :=
| CScalar (s : Scalar)
| CTime (t : Timestamp)
| CNaT.

(** The cell pandas stores where a record has no member for a column. *)
Definition missing : Cell := CScalar (SNum NaN).

(** [pd.isna] on a cell. *)
Definition isna (c : Cell) : bool :=
  match c with
  | CScalar SNull => true
  | CScalar (SNum x) => is_nan x
  | CScalar _ => false
  | CTime _ => false
  | CNaT => true
  end.

(** ** Dictionaries *)

(** Lookup in a decoded object; a repeated member name keeps its last value,
    as the decoder does. *)
Fixpoint dict_get {V : Type} (k : string) (d : list (string * V)) : option V :=
  match d with
  | [] => None
  | (k', v) :: d' =>
      match dict_get k d' with
      | Some v' => Some v'
      | None => if String.eqb k k' then Some v else None
      end
  end.

(** [d[k]] *)
Definition dict_getitem {V : Type} (d : list (string * V)) (k : string) : Py V :=
  match dict_get k d with
  | Some v => ret v
  | None => raise (KeyError k)
  end.

(** Truth value of a decoded member, as tested by [not data['data']]. *)
Definition truthy (v : Value) : bool :=
  match v with
  | VScalar SNull => false
  | VScalar (SBool b) => b
  | VScalar (SNum (Int n)) => negb (n =? 0)
  | VScalar (SNum (Real d)) => negb (digits d =? 0)
  | VScalar (SNum _) => true
  | VScalar (SStr s) => negb (String.eqb s EmptyString)
  | VRecords recs => match recs with [] => false | _ :: _ => true end
  end.

(** ** Frames *)

Record DataFrame : Type := { columns : list string; rows : list (list Cell) }.

(** [len(df)] *)
Definition len (df : DataFrame) : nat := List.length (rows df).

Definition mem_str (s : string) (l : list string) : bool :=
  existsb (String.eqb s) l.

(** Column labels of a frame built from records: every member name, in order
    of first appearance. *)
Definition add_keys (seen : list string) (r : RawRecord) : list string :=
  fold_left (fun acc k => if mem_str k acc then acc else acc ++ [k])
            (map fst r) seen.

Definition columns_of (recs : list RawRecord) : list string :=
  fold_left add_keys recs [].

(** The value a record contributes to a column: its member of that name, or
    [NaN] where it has none. *)
Definition field (r : RawRecord) (c : string) : Scalar :=
  match dict_get c r with
  | Some v => v
  | None => SNum NaN
  end.

Definition row_of (cols : list string) (r : RawRecord) : list Cell :=
  map (fun c => CScalar (field r c)) cols.

Definition frame_of_records (recs : list RawRecord) : DataFrame :=
  {| columns := columns_of recs;
     rows := map (row_of (columns_of recs)) recs |}.

(** [pd.DataFrame(v)] *)
Definition pd_DataFrame (v : Value) : Py DataFrame :=
  match v with
  | VScalar _ => raise (ValueError "DataFrame constructor not properly called!")
  | VRecords recs => ret (frame_of_records recs)
  end.

(** Positions of a label among the columns. *)
Fixpoint positions_from (i : nat) (name : string) (cols : list string) : list nat :=
  match cols with
  | [] => []
  | c :: cols' =>
      if String.eqb name c then i :: positions_from (S i) name cols'
      else positions_from (S i) name cols'
  end.

Definition positions (name : string) (cols : list string) : list nat :=
  positions_from 0 name cols.

(** The result of [df[name]]: a column, or a sub-frame when the label is
    carried by several columns. *)
Inductive Selection : Type :=
| Series (cells : list Cell)
| SubFrame (cols : list nat).

Definition column_at (i : nat) (df : DataFrame) : list Cell :=
  map (fun r => nth i r missing) (rows df).

(** [df[name]] *)
Definition getitem (df : DataFrame) (name : string) : Py Selection :=
  match positions name (columns df) with
  | [] => raise (KeyError name)
  | [i] => ret (Series (column_at i df))
  | ps => ret (SubFrame ps)
  end.

Fixpoint set_nth {A : Type} (i : nat) (x : A) (l : list A) : list A :=
  match i, l with
  | _, [] => []
  | O, _ :: l' => x :: l'
  | S i', y :: l' => y :: set_nth i' x l'
  end.

Fixpoint set_column (i : nat) (cells : list Cell) (rs : list (list Cell))
  : list (list Cell) :=
  match rs, cells with
  | r :: rs', c :: cells' => set_nth i c r :: set_column i cells' rs'
  | _, _ => rs
  end.

Fixpoint append_column (cells : list Cell) (rs : list (list Cell))
  : list (list Cell) :=
  match rs, cells with
  | r :: rs', c :: cells' => (r ++ [c]) :: append_column cells' rs'
  | _, _ => rs
  end.

(** [df[name] = cells], for a series taken from the same frame. *)
Definition setitem (df : DataFrame) (name : string) (cells : list Cell) : DataFrame :=
  match positions name (columns df) with
  | [] => {| columns := columns df ++ [name];
             rows := append_column cells (rows df) |}
  | ps => {| columns := columns df;
             rows := fold_left (fun rs i => set_column i cells rs) ps (rows df) |}
  end.

(** [df.rename(columns=mapping, inplace=True)]: labels absent from the frame
    are ignored. *)
Definition rename (df : DataFrame) (mapping : list (string * string)) : DataFrame :=
  {| columns := map (fun c => match dict_get c mapping with
                              | Some c' => c'
                              | None => c
                              end) (columns df);
     rows := rows df |}.

(** [df.dropna(subset=[name])]; the key of the error is the list of the
    labels not found. *)
Definition dropna (df : DataFrame) (name : string) : Py DataFrame :=
  match positions name (columns df) with
  | [] => raise (LibraryError "KeyError" ("[" ++ repr_str name ++ "]")%string)
  | ps => ret {| columns := columns df;
                 rows := filter (fun r => negb (existsb (fun i => isna (nth i r missing)) ps))
                                (rows df) |}
  end.

(** ** Conversions of pandas *)

(** The clock pandas reads for the texts ['now'] and ['today']: the time at
    which the entry at a position of the column is converted. *)
Record Clock : Type := { now : nat -> Timestamp; today : nat -> Timestamp }.

(** What [pd.to_datetime] does with a column at a time of the clock (one
    timestamp, or [None] for [NaT], per entry; or an exception, the default
    [errors='raise']) and what [pd.to_numeric(..., errors='coerce')] does
    with a column (one number per entry, [NaN] where the entry is not a
    number).  Both see the whole column: the format of the dates is inferred
    once for the column, and so is the type of the numbers. *)
Class Pandas : Type := {
  to_datetime_column : Clock -> list Cell -> Py (list (option Timestamp));
  to_numeric_column : list Cell -> list Number;
  to_datetime_length :
    forall (c : Clock) (col : list Cell) (ts : list (option Timestamp)),
      to_datetime_column c col = inr ts -> List.length ts = List.length col;
  to_numeric_length :
    forall col : list Cell, List.length (to_numeric_column col) = List.length col
}.

Definition time_cell (t : option Timestamp) : Cell :=
  match t with
  | Some t' => CTime t'
  | None => CNaT
  end.

Definition number_cell (x : Number) : Cell := CScalar (SNum x).

Section Conversions.
Context {P : Pandas}.

(** [pd.to_datetime(df[name])] *)
Definition to_datetime (c : Clock) (sel : Selection) : Py (list Cell) :=
  match sel with
  | Series cells =>
      ts <- to_datetime_column c cells ;;
      ret (map time_cell ts)
  | SubFrame _ =>
      raise (ValueError
        "to assemble mappings requires at least that [year, month, day] be specified: [day,month,year] is missing")
  end.

(** [pd.to_numeric(df[name], errors='coerce')] *)
Definition to_numeric (sel : Selection) : Py (list Cell) :=
  match sel with
  | Series cells => ret (map number_cell (to_numeric_column cells))
  | SubFrame _ => raise (TypeError "arg must be a list, tuple, 1-d array, or Series")
  end.
End Conversions.

(** ** The provider *)

(** [requests.get(url)] raises or yields a response, whose [json()] raises
    or yields the decoded body; [clock] is the time of the run. *)
Record Response : Type := { json : Py (list (string * Value)) }.
Record World : Type := {
  requests_get : string -> Py Response;
  clock : Clock
}.

Definition url_of (fund_code : string) : string :=
  ("https://www.nseindia.com/api/mf/owe/get-historical-data?schemeCode="
   ++ fund_code ++ "&fromDate=20200101&toDate=20231231")%string.

Definition NoDataError : string :=
  "No data available for the specified mutual fund code.".
Definition InsufficientDataError : string :=
  "Not enough data points for prediction.".

Section Fetch.
Context {P : Pandas}.

(** Lines 18 to 27: the frame built from [data['data']], cleaned. *)
Definition normalize (c : Clock) (d : Value)
  : Py (option DataFrame * option string) :=
  df <- pd_DataFrame d ;;
  date <- getitem df "date" ;;
  ds <- to_datetime c date ;;
  let df := setitem df "date" ds in
  let df := rename df [("date", "ds"); ("nav", "y")] in
  y <- getitem df "y" ;;
  yn <- to_numeric y ;;
  let df := setitem df "y" yn in
  df <- dropna df "y" ;;
  if (len df <? 2)%nat then ret (None, Some InsufficientDataError)
  else ret (Some df, None).

(** The body of the [try] block. *)
Definition fetch_try (w : World) (fund_code : string)
  : Py (option DataFrame * option string) :=
  response <- requests_get w (url_of fund_code) ;;
  data <- json response ;;
  d <- dict_getitem data "data" ;;
  if negb (truthy d) then ret (None, Some NoDataError)
  else normalize (clock w) d.

Definition fetch_mutual_fund_data (w : World) (fund_code : string)
  : option DataFrame * option string :=
  match fetch_try w fund_code with
  | inr r => r
  | inl e => (None, Some (str_exn e))
  end.
End Fetch.

(** ** Calendar *)

Definition ns_per_day : Z := 86400000000000.

(** Days since 1970-01-01 of a proleptic Gregorian date. *)
Definition days_from_civil (y m d : Z) : Z :=
  let y' := if m <=? 2 then y - 1 else y in
  let era := y' / 400 in
  let yoe := y' - era * 400 in
  let mp := if 2 <? m then m - 3 else m + 9 in
  let doy := (153 * mp + 2) / 5 + d - 1 in
  let doe := yoe * 365 + yoe / 4 - yoe / 100 + doy in
  era * 146097 + doe - 719468.

(** The date (year, month, day) of a day number. *)
Definition civil_from_days (z : Z) : Z * Z * Z :=
  let z' := z + 719468 in
  let era := z' / 146097 in
  let doe := z' - era * 146097 in
  let yoe := (doe - doe / 1460 + doe / 36524 - doe / 146096) / 365 in
  let doy := doe - (365 * yoe + yoe / 4 - yoe / 100) in
  let mp := (5 * doy + 2) / 153 in
  let d := doy - (153 * mp + 2) / 5 + 1 in
  let m := if mp <? 10 then mp + 3 else mp - 9 in
  let y := yoe + era * 400 in
  (if m <=? 2 then y + 1 else y, m, d).

(** Midnight of a date. *)
Definition date (y m d : Z) : Timestamp := days_from_civil y m d * ns_per_day.

(** [.dt.year] of a timestamp. *)
Definition year (t : Timestamp) : Z :=
  let '(y, _, _) := civil_from_days (t / ns_per_day) in y.

(** ** The forecasting model *)

Inductive SeasonalityMode : Type := additive | multiplicative.

(** A seasonality argument: ['auto'], [True]/[False], or a Fourier order. *)
Inductive SeasonalityArg : Type :=
| auto
| enabled (b : bool)
| fourier_terms (n : nat).

(** The table returned by [make_holidays_df(year_list, country)], kept as the
    call that produced it. *)
Record Holidays : Type := { year_list : list Z; country : string }.

Definition make_holidays_df (years : list Z) (c : string) : Holidays :=
  {| year_list := years; country := c |}.

(** An entry of [model.seasonalities], under its name. *)
Record Seasonality : Type :=
  { name : string; period : Decimal; fourier_order : Z; mode : SeasonalityMode }.

(** A historical series as [fit] reads it: the [ds] and [y] columns. *)
Definition History : Type := list (Timestamp * Number).

(** The state of a [Prophet] object the script depends on. *)
Record Prophet : Type := {
  seasonality_mode : SeasonalityMode;
  changepoint_prior_scale : Decimal;
  yearly_seasonality : SeasonalityArg;
  weekly_seasonality : SeasonalityArg;
  daily_seasonality : SeasonalityArg;
  holidays : option Holidays;
  seasonalities : list Seasonality;
  history : option History;
  history_dates : list Timestamp
}.

(** Keyword arguments of the constructor; [None] is an argument left out. *)
Record Kwargs : Type := {
  kw_seasonality_mode : option SeasonalityMode;
  kw_changepoint_prior_scale : option Decimal;
  kw_yearly_seasonality : option SeasonalityArg;
  kw_weekly_seasonality : option SeasonalityArg;
  kw_daily_seasonality : option SeasonalityArg;
  kw_holidays : option Holidays
}.

Definition default {A : Type} (o : option A) (d : A) : A :=
  match o with
  | Some a => a
  | None => d
  end.

(** The constructor call, with the defaults of the library's constructor:
    [seasonality_mode='additive'], [changepoint_prior_scale=0.05] and the
    three seasonal components on ['auto']. *)
Definition Prophet_init (kw : Kwargs) : Prophet :=
  {| seasonality_mode := default (kw_seasonality_mode kw) additive;
     changepoint_prior_scale :=
       default (kw_changepoint_prior_scale kw) {| digits := 5; scale := 2 |};
     yearly_seasonality := default (kw_yearly_seasonality kw) auto;
     weekly_seasonality := default (kw_weekly_seasonality kw) auto;
     daily_seasonality := default (kw_daily_seasonality kw) auto;
     holidays := kw_holidays kw;
     seasonalities := [];
     history := None;
     history_dates := [] |}.

(** [model.seasonalities[s.name] = s]: an entry of that name is replaced
    where it stands, a new one comes last. *)
Fixpoint put_seasonality (s : Seasonality) (l : list Seasonality)
  : list Seasonality :=
  match l with
  | [] => [s]
  | x :: l' =>
      if String.eqb (name x) (name s) then s :: l'
      else x :: put_seasonality s l'
  end.

Definition with_seasonalities (m : Prophet) (l : list Seasonality) : Prophet :=
  {| seasonality_mode := seasonality_mode m;
     changepoint_prior_scale := changepoint_prior_scale m;
     yearly_seasonality := yearly_seasonality m;
     weekly_seasonality := weekly_seasonality m;
     daily_seasonality := daily_seasonality m;
     holidays := holidays m;
     seasonalities := l;
     history := history m;
     history_dates := history_dates m |}.

(** [model.add_seasonality(name=.., period=.., fourier_order=..)], the mode
    being that of the model; the two labels the script uses pass the
    library's name validation. *)
Definition add_seasonality (m : Prophet) (nm : string) (p : Decimal) (order : Z)
  : Py Prophet :=
  match history m with
  | Some _ => raise (LibraryError "Exception"
                       "Seasonality must be added prior to model fitting.")
  | None =>
      if order <=? 0 then raise (ValueError "Fourier Order must be > 0")
      else ret (with_seasonalities m
                  (put_seasonality
                     {| name := nm; period := p; fourier_order := order;
                        mode := seasonality_mode m |}
                     (seasonalities m)))
  end.

(** Sorted, duplicate-free dates. *)
Fixpoint insert_date (t : Timestamp) (l : list Timestamp) : list Timestamp :=
  match l with
  | [] => [t]
  | x :: l' =>
      if t <? x then t :: l
      else if t =? x then l
      else x :: insert_date t l'
  end.

Definition sort_unique (l : list Timestamp) : list Timestamp :=
  fold_right insert_date [] l.

(** A forecast row; the further columns of the library's output are not
    read by the script. *)
Record ForecastRow : Type := {
  ds : Timestamp;
  yhat : Number;
  yhat_lower : Number;
  yhat_upper : Number
}.

(** The numerical side of the library: the optimisation run by [fit], which
    may fail, and the values [predict] computes for a date. *)
Class Engine : Type := {
  optimize : Prophet -> Py unit;
  predict_values : Prophet -> Timestamp -> Number * Number * Number
}.

Definition is_infinite (x : Number) : bool :=
  match x with
  | Infinity _ => true
  | _ => false
  end.

Definition set_history (m : Prophet) (h : History) (dates : list Timestamp) : Prophet :=
  {| seasonality_mode := seasonality_mode m;
     changepoint_prior_scale := changepoint_prior_scale m;
     yearly_seasonality := yearly_seasonality m;
     weekly_seasonality := weekly_seasonality m;
     daily_seasonality := daily_seasonality m;
     holidays := holidays m;
     seasonalities := seasonalities m;
     history := Some h;
     history_dates := dates |}.

(** [df.sort_values('ds')], a stable sort. *)
Fixpoint insert_row (p : Timestamp * Number) (l : History) : History :=
  match l with
  | [] => [p]
  | q :: l' => if fst p <=? fst q then p :: l else q :: insert_row p l'
  end.

Definition sort_values (h : History) : History := fold_right insert_row [] h.

(** [last - first] of the [ds] column. *)
Definition span (h : History) : Z :=
  match map fst h with
  | [] => 0
  | t :: ts => fold_left Z.max ts t - fold_left Z.min ts t
  end.

(** [ds.diff()] and the least of its entries other than zero. *)
Fixpoint diffs (l : list Timestamp) : list Z :=
  match l with
  | x :: (y :: _) as l' => (y - x) :: diffs l'
  | _ => []
  end.

Definition min_dt (h : History) : option Z :=
  match filter (fun d => negb (d =? 0)) (diffs (map fst h)) with
  | [] => None
  | d :: ds => Some (fold_left Z.min ds d)
  end.

(** [min_dt >= bound], false where there is no difference to compare. *)
Definition at_least (o : option Z) (bound : Z) : bool :=
  match o with
  | Some d => bound <=? d
  | None => false
  end.

(** [parse_seasonality_args(name, arg, auto_disable, default_order)] *)
Definition parse_seasonality_args (m : Prophet) (nm : string)
           (arg : SeasonalityArg) (auto_disable : bool) (default_order : Z) : Z :=
  match arg with
  | auto =>
      if existsb (fun s => String.eqb (name s) nm) (seasonalities m) then 0
      else if auto_disable then 0
      else default_order
  | enabled true => default_order
  | enabled false => 0
  | fourier_terms n => Z.of_nat n
  end.

Definition builtin_seasonality (m : Prophet) (nm : string) (p : Decimal)
           (order : Z) : Prophet :=
  if 0 <? order
  then with_seasonalities m
         (put_seasonality {| name := nm; period := p; fourier_order := order;
                             mode := seasonality_mode m |} (seasonalities m))
  else m.

(** [set_auto_seasonalities()], on the history [fit] has set. *)
Definition set_auto_seasonalities (m : Prophet) : Prophet :=
  match history m with
  | None => m
  | Some h =>
      let yearly_disable := span h <? 730 * ns_per_day in
      let m1 := builtin_seasonality m "yearly" {| digits := 36525; scale := 2 |}
                  (parse_seasonality_args m "yearly" (yearly_seasonality m)
                                          yearly_disable 10) in
      let weekly_disable :=
        (span h <? 14 * ns_per_day) || at_least (min_dt h) (7 * ns_per_day) in
      let m2 := builtin_seasonality m1 "weekly" {| digits := 7; scale := 0 |}
                  (parse_seasonality_args m1 "weekly" (weekly_seasonality m1)
                                          weekly_disable 3) in
      let daily_disable :=
        (span h <? 2 * ns_per_day) || at_least (min_dt h) ns_per_day in
      builtin_seasonality m2 "daily" {| digits := 1; scale := 0 |}
        (parse_seasonality_args m2 "daily" (daily_seasonality m2)
                                daily_disable 4)
  end.

Section Forecasting.
Context {E : Engine}.

(** [model.fit(df)]: the rows with a value, sorted by date, are the history;
    the seasonal components left on ['auto'] are decided from it; then the
    model is optimised. *)
Definition fit (m : Prophet) (df : History) : Py Prophet :=
  match history m with
  | Some _ => raise (LibraryError "Exception"
                "Prophet object can only be fit once. Instantiate a new object.")
  | None =>
      let h := filter (fun p => negb (is_nan (snd p))) df in
      if (List.length h <? 2)%nat
      then raise (ValueError "Dataframe has less than 2 non-NaN rows.")
      else
        let dates := sort_unique (map fst df) in
        if existsb (fun p => is_infinite (snd p)) h
        then raise (ValueError "Found infinity in column y.")
        else
          let m' := set_auto_seasonalities
                      (set_history m (sort_values h) dates) in
          _ <- optimize m' ;;
          ret m'
  end.

(** [pd.date_range(start=.., periods=.., freq=..)] with a fixed step. *)
Definition date_range (start : Timestamp) (periods : nat) (freq : Z)
  : list Timestamp :=
  map (fun k => start + Z.of_nat k * freq) (seq 0 periods).

(** [history_dates.max()] *)
Definition max_date (l : list Timestamp) : option Timestamp :=
  match l with
  | [] => None
  | x :: l' => Some (fold_left Z.max l' x)
  end.

(** [model.make_future_dataframe(periods=..)], with the defaults
    [freq='D'] and [include_history=True]. *)
Definition make_future_dataframe (m : Prophet) (periods : nat)
  : Py (list Timestamp) :=
  match history m with
  | None => raise (LibraryError "Exception" "Model has not been fit.")
  | Some _ =>
      match max_date (history_dates m) with
      | None => raise (ValueError "Neither `start` nor `end` can be NaT")
      | Some last_date =>
          let dates := date_range last_date (periods + 1) ns_per_day in
          let dates := filter (fun t => last_date <? t) dates in
          let dates := firstn periods dates in
          ret (history_dates m ++ dates)
      end
  end.

(** [model.predict(future)] *)
Definition predict (m : Prophet) (future : list Timestamp) : list ForecastRow :=
  map (fun t => let '(point, lower, upper) := predict_values m t in
                {| ds := t; yhat := point;
                   yhat_lower := lower; yhat_upper := upper |}) future.
End Forecasting.

(** ** The Predict page *)

Definition page_kwargs : Kwargs :=
  {| kw_seasonality_mode := Some multiplicative;
     kw_changepoint_prior_scale := Some {| digits := 5; scale := 2 |};
     kw_yearly_seasonality := Some (enabled true);
     kw_weekly_seasonality := Some (enabled true);
     kw_daily_seasonality := Some (enabled false);
     kw_holidays := None |}.

Definition holidays_kwargs (h : Holidays) : Kwargs :=
  {| kw_seasonality_mode := None;
     kw_changepoint_prior_scale := None;
     kw_yearly_seasonality := None;
     kw_weekly_seasonality := None;
     kw_daily_seasonality := None;
     kw_holidays := Some h |}.

(** Lines 77 to 91: the value of [model] when [fit] is called on the stock
    path. *)
Definition stock_model : Py Prophet :=
  let model := Prophet_init page_kwargs in
  model' <- add_seasonality model "monthly" {| digits := 305; scale := 1 |} 5 ;;
  model'' <- add_seasonality model' "weekly" {| digits := 7; scale := 0 |} 3 ;;
  let holidays := make_holidays_df [2021; 2022; 2023; 2024] "IN" in
  let model := Prophet_init (holidays_kwargs holidays) in
  ret model.

(** Lines 127 to 137: the same on the mutual-fund path. *)
Definition mutual_fund_model : Py Prophet :=
  let model := Prophet_init page_kwargs in
  let holidays := make_holidays_df [2021; 2022; 2023; 2024] "IN" in
  let model := Prophet_init (holidays_kwargs holidays) in
  ret model.

(** [forecast['ds'].dt.year >= cutoff] *)
Definition year_mask (cutoff : Z) (forecast : list ForecastRow) : list bool :=
  map (fun y => cutoff <=? y) (map (fun r => year (ds r)) forecast).

(** [frame[mask]]: the rows at which the mask holds. *)
Fixpoint getitem_mask {A : Type} (frame : list A) (mask : list bool) : Py (list A) :=
  match frame, mask with
  | [], [] => ret []
  | r :: frame', b :: mask' =>
      rest <- getitem_mask frame' mask' ;;
      ret (if b then r :: rest else rest)
  | _, _ => raise (ValueError "Item wrong length")
  end.

Definition filter_from_year (cutoff : Z) (forecast : list ForecastRow)
  : Py (list ForecastRow) :=
  getitem_mask forecast (year_mask cutoff forecast).

(** Lines 99 and 145. *)
Definition forecast_filtered (forecast : list ForecastRow) : Py (list ForecastRow) :=
  filter_from_year 2024 forecast.

(** What reaches the display: the caption, the table of four columns and the
    frame handed to the plot. *)
Record Display : Type := {
  caption : string;
  table : list (Timestamp * Number * Number * Number);
  plotted : list ForecastRow
}.

(** Lines 99 to 107 and 145 to 153. *)
Definition present (title : string) (forecast : list ForecastRow) : Py Display :=
  filtered <- forecast_filtered forecast ;;
  ret {| caption := title;
         table := map (fun r => (ds r, yhat r, yhat_lower r, yhat_upper r)) filtered;
         plotted := filtered |}.

Section Pipeline.
Context {E : Engine}.

(** Lines 92 to 96 (138 to 142): the fitted model, the future frame handed
    to [predict] and the forecast. *)
Definition fit_and_predict (model : Py Prophet) (data : History)
  : Py (Prophet * list Timestamp * list ForecastRow) :=
  model <- model ;;
  model <- fit model data ;;
  future <- make_future_dataframe model 90 ;;
  let forecast := predict model future in
  ret (model, future, forecast).

(** Lines 92 to 107, from the fitted model to the display. *)
Definition forecast_and_present (model : Py Prophet) (title : string)
           (data : History) : Py Display :=
  r <- fit_and_predict model data ;;
  present title (snd r).

Definition stock_forecast (ticker : string) (stock_data : History) : Py Display :=
  forecast_and_present stock_model
    ("**Predicted Stock Prices for " ++ ticker ++ " (From 2024, Next 90 Days):**")%string
    stock_data.

Definition mutual_fund_forecast (fund_code : string) (mf_data : History) : Py Display :=
  forecast_and_present mutual_fund_model
    ("**Predicted Mutual Fund Prices for " ++ fund_code ++ " (From 2024, Next 90 Days):**")%string
    mf_data.
End Pipeline.

(** ** A reference instance of the conversions

    Used by the examples of this file.  It follows pandas 2 on columns of
    [None], [NaN], booleans, integers of 64 bits, dates written
    [YYYY-MM-DD] within the range of a timestamp, the texts ['now'] and
    ['today'], integer and decimal literals, and texts such as ["bad"] that
    are no date and no number.  The other notations of dates and numbers
    that pandas reads are outside this instance, which takes them for texts
    that are no date and no number. *)

Definition digit_of (c : ascii) : option Z :=
  let n := Z.of_nat (nat_of_ascii c) in
  if (48 <=? n) && (n <=? 57) then Some (n - 48) else None.

Fixpoint digits_value (acc : Z) (s : string) : option Z :=
  match s with
  | EmptyString => Some acc
  | String c s' =>
      match digit_of c with
      | Some d => digits_value (10 * acc + d) s'
      | None => None
      end
  end.

Definition parse_nat (s : string) : option Z :=
  match s with
  | EmptyString => None
  | _ => digits_value 0 s
  end.

Definition is_dash (o : option ascii) : bool :=
  match o with
  | Some c => Ascii.eqb c "-"
  | None => false
  end.

Definition parse_iso_date (s : string) : option Timestamp :=
  if (String.length s =? 10)%nat && is_dash (get 4 s) && is_dash (get 7 s) then
    match parse_nat (substring 0 4 s), parse_nat (substring 5 2 s),
          parse_nat (substring 8 2 s) with
    | Some y, Some m, Some d =>
        let '(y', m', d') := civil_from_days (days_from_civil y m d) in
        if (y' =? y) && (m' =? m) && (d' =? d) then Some (date y m d) else None
    | _, _, _ => None
    end
  else None.

Definition int64_min : Z := - 2 ^ 63.
Definition int64_max : Z := 2 ^ 63 - 1.

Definition in_int64 (n : Z) : bool := (int64_min <=? n) && (n <=? int64_max).

(** The float64 nearest to an integer, ties to even. *)
Definition round_float64 (n : Z) : Z :=
  let a := Z.abs n in
  let bits := Z.log2 a + 1 in
  if bits <=? 53 then n
  else
    let sh := bits - 53 in
    let q := Z.shiftr a sh in
    let r := a - Z.shiftl q sh in
    let half := Z.shiftl 1 (sh - 1) in
    let q' := if (half <? r) || ((half =? r) && Z.odd q) then q + 1 else q in
    Z.sgn n * Z.shiftl q' sh.

Definition as_float64 (x : Number) : Number :=
  match x with
  | Int n => Int (round_float64 n)
  | _ => x
  end.

Definition is_int64 (x : Number) : bool :=
  match x with
  | Int n => in_int64 n
  | _ => false
  end.

(** A numeric array is of integers when all its entries are; one entry that
    is not makes it an array of float64. *)
Definition numeric_array (xs : list Number) : list Number :=
  if forallb is_int64 xs then xs else map as_float64 xs.

Definition numeric_or_null (c : Cell) : option Number :=
  match c with
  | CScalar SNull => Some NaN
  | CScalar (SNum x) => Some x
  | _ => None
  end.

Fixpoint all_numeric (col : list Cell) : option (list Number) :=
  match col with
  | [] => Some []
  | c :: col' =>
      match numeric_or_null c, all_numeric col' with
      | Some x, Some xs => Some (x :: xs)
      | _, _ => None
      end
  end.

(** The column as the frame holds it: numbers and [None] only make a numeric
    array, anything else leaves the objects as they are. *)
Definition stored (col : list Cell) : list Cell :=
  match all_numeric col with
  | Some xs => map number_cell (numeric_array xs)
  | None => col
  end.

Definition quote : string := String "034"%char EmptyString.
Definition newline : string := String "010"%char EmptyString.

Definition position (i : nat) : string := NilZero.string_of_uint (Nat.to_uint i).

Definition str_int (n : Z) : string := NilZero.string_of_int (Z.to_int n).

Definition nat_strings : list string := ["NaT"; "nat"; "NAT"; "nan"; "NaN"; "NAN"].

(** A text that stands for no date. *)
Definition null_text (s : string) : bool :=
  String.eqb s EmptyString || existsb (String.eqb s) nat_strings.

(** [first_non_null]: the entry from which the format is inferred is the
    first that is neither null nor one of the texts that stand for no date
    or for the present time. *)
Definition skipped (c : Cell) : bool :=
  match c with
  | CScalar (SStr s) => null_text s || String.eqb s "now" || String.eqb s "today"
  | _ => isna c
  end.

Definition first_non_null (col : list Cell) : option Cell :=
  find (fun c => negb (skipped c)) col.

(** [_guess_datetime_format_for_array], for the one format of this instance. *)
Definition guessed_iso (col : list Cell) : bool :=
  match first_non_null col with
  | Some (CScalar (SStr s)) =>
      match parse_iso_date s with
      | Some _ => true
      | None => false
      end
  | _ => false
  end.

Definition hints : string :=
  (". You might want to try:" ++ newline
   ++ "    - passing `format` if your strings have a consistent format;" ++ newline
   ++ "    - passing `format='ISO8601'` if your strings are all ISO8601 but not necessarily in exactly the same format;" ++ newline
   ++ "    - passing `format='mixed'`, and the format will be inferred for each element individually. You might want to use `dayfirst` alongside this.")%string.

Definition mismatch (s : string) (i : nat) : PyExn :=
  ValueError ("time data " ++ quote ++ s ++ quote ++ " doesn't match format "
              ++ quote ++ "%Y-%m-%d" ++ quote ++ ", at position " ++ position i
              ++ hints)%string.

Definition out_of_bounds (s : string) (i : nat) : PyExn :=
  LibraryError "OutOfBoundsDatetime"
    ("Out of bounds nanosecond timestamp: " ++ s ++ ", at position "
     ++ position i)%string.

Definition unknown_format (s : string) (i : nat) : PyExn :=
  LibraryError "DateParseError"
    ("Unknown datetime string format, unable to parse: " ++ s
     ++ ", at position " ++ position i)%string.

(** [str] of an entry that is no text. *)
Definition str_scalar (s : Scalar) : string :=
  match s with
  | SNull => "None"
  | SBool true => "True"
  | SBool false => "False"
  | SNum (Int n) => str_int n
  | SNum (Real d) =>
      (str_int (Z.quot (digits d) (10 ^ Z.of_nat (scale d))) ++ "."
       ++ str_int (Z.abs (Z.rem (digits d) (10 ^ Z.of_nat (scale d)))))%string
  | SNum (Infinity false) => "inf"
  | SNum (Infinity true) => "-inf"
  | SNum NaN => "nan"
  | SStr s' => s'
  end.

(** A date of the calendar, when it is in the range of a timestamp. *)
Definition iso_text (s : string) (i : nat) (t : Timestamp) : Py (option Timestamp) :=
  if in_int64 t && negb (t =? int64_min) then ret (Some t)
  else raise (out_of_bounds s i).

(** [array_strptime] with the inferred format: every entry that is not null
    has to match it, whatever its type. *)
Definition strptime_entry (c : Clock) (i : nat) (x : Cell)
  : Py (option Timestamp) :=
  match x with
  | CTime t => ret (Some t)
  | CNaT => ret None
  | CScalar SNull => ret None
  | CScalar (SNum NaN) => ret None
  | CScalar (SStr s) =>
      if null_text s then ret None
      else
        match parse_iso_date s with
        | Some t => iso_text s i t
        | None =>
            if String.eqb s "now" then ret (Some (now c i))
            else if String.eqb s "today" then ret (Some (today c i))
            else raise (mismatch s i)
        end
  | CScalar (SNum (Int n)) =>
      if n =? int64_min then ret None else raise (mismatch (str_int n) i)
  | CScalar s => raise (mismatch (str_scalar s) i)
  end.

(** [array_to_datetime], where no format was inferred: each entry is
    converted by itself, a number being a count of nanoseconds. *)
Definition datetime_entry (c : Clock) (i : nat) (x : Cell)
  : Py (option Timestamp) :=
  match x with
  | CTime t => ret (Some t)
  | CNaT => ret None
  | CScalar SNull => ret None
  | CScalar (SNum NaN) => ret None
  | CScalar (SNum (Int n)) =>
      if n =? int64_min then ret None
      else if in_int64 n then ret (Some n)
      else raise (LibraryError "OutOfBoundsDatetime"
                    ("cannot convert input " ++ str_int n
                     ++ " with the unit 'ns', at position " ++ position i)%string)
  | CScalar (SNum (Real d)) =>
      ret (Some (Z.quot (digits d) (10 ^ Z.of_nat (scale d))))
  | CScalar (SNum (Infinity b)) =>
      raise (LibraryError "OutOfBoundsDatetime"
               ("cannot convert input " ++ str_scalar (SNum (Infinity b))
                ++ " with the unit 'ns', at position " ++ position i)%string)
  | CScalar (SBool _) =>
      raise (TypeError ("<class 'bool'> is not convertible to datetime, at position "
                        ++ position i)%string)
  | CScalar (SStr s) =>
      if null_text s then ret None
      else if String.eqb s "now" then ret (Some (now c i))
      else if String.eqb s "today" then ret (Some (today c i))
      else
        match parse_iso_date s with
        | Some t => iso_text s i t
        | None => raise (unknown_format s i)
        end
  end.

(** The entries are converted in order; the first that fails ends the
    conversion. *)
Fixpoint convert_from (f : nat -> Cell -> Py (option Timestamp)) (i : nat)
         (col : list Cell) : Py (list (option Timestamp)) :=
  match col with
  | [] => ret []
  | x :: col' =>
      t <- f i x ;;
      ts <- convert_from f (S i) col' ;;
      ret (t :: ts)
  end.

Definition iso_to_datetime (c : Clock) (col : list Cell)
  : Py (list (option Timestamp)) :=
  let col := stored col in
  if guessed_iso col then convert_from (strptime_entry c) 0 col
  else convert_from (datetime_entry c) 0 col.

(** A decimal literal without its sign: digits, or digits, a point and
    digits, one of the two runs of digits at least being there. *)
Definition parse_unsigned (s : string) : option Number :=
  match index 0 "." s with
  | None => option_map Int (parse_nat s)
  | Some k =>
      let whole := substring 0 k s in
      let frac := substring (S k) (String.length s - S k) s in
      if (String.length whole + String.length frac =? 0)%nat then None
      else
        match digits_value 0 whole, digits_value 0 frac with
        | Some w, Some f =>
            Some (Real {| digits := w * 10 ^ Z.of_nat (String.length frac) + f;
                          scale := String.length frac |})
        | _, _ => None
        end
  end.

Definition negate (x : Number) : Number :=
  match x with
  | Int n => Int (- n)
  | Real d => Real {| digits := - digits d; scale := scale d |}
  | Infinity b => Infinity (negb b)
  | NaN => NaN
  end.

Definition parse_decimal (s : string) : option Number :=
  match s with
  | String "-" s' => option_map negate (parse_unsigned s')
  | String "+" s' => parse_unsigned s'
  | _ => parse_unsigned s
  end.

(** [maybe_convert_numeric] on an entry, with [coerce_numeric]. *)
Definition numeric_entry (c : Cell) : Number :=
  match c with
  | CScalar SNull => NaN
  | CScalar (SBool b) => Int (if b then 1 else 0)
  | CScalar (SNum x) => x
  | CScalar (SStr s) =>
      match parse_decimal s with
      | Some x => x
      | None => NaN
      end
  | CTime t => Int t
  | CNaT => NaN
  end.

Definition iso_to_numeric (col : list Cell) : list Number :=
  numeric_array (map numeric_entry col).

Definition iso_pandas : Pandas.
Proof.
  refine {| to_datetime_column := iso_to_datetime;
            to_numeric_column := iso_to_numeric |}.
  - intros c col ts. unfold iso_to_datetime.
    assert (Hstored : List.length (stored col) = List.length col).
    { unfold stored. destruct (all_numeric col) as [xs |] eqn:Hxs; [| reflexivity].
      rewrite length_map. unfold numeric_array.
      assert (Hlen : List.length xs = List.length col).
      { revert xs Hxs. induction col as [| x col IH]; simpl; intros xs Hxs.
        - injection Hxs as <-. reflexivity.
        - destruct (numeric_or_null x); [| discriminate].
          destruct (all_numeric col); [| discriminate].
          injection Hxs as <-. simpl. f_equal. apply IH. reflexivity. }
      destruct (forallb is_int64 xs); [| rewrite length_map]; exact Hlen. }
    assert (Hconv : forall f col i ts,
               convert_from f i col = inr ts -> List.length ts = List.length col).
    { clear. intros f col. induction col as [| x col IH]; simpl; intros i ts H.
      - injection H as <-. reflexivity.
      - destruct (f i x); [discriminate |]. simpl in H.
        destruct (convert_from f (S i) col) eqn:Hc; [discriminate |].
        injection H as <-. simpl. f_equal. exact (IH _ _ Hc). }
    rewrite <- Hstored.
    destruct (guessed_iso (stored col)); apply Hconv.
  - intros col. unfold iso_to_numeric, numeric_array.
    destruct (forallb is_int64 (map numeric_entry col));
      repeat rewrite length_map; reflexivity.
Defined.

(** An engine whose optimisation always converges and which forecasts the
    constant 100, for the examples. *)
Definition constant_engine : Engine :=
  {| optimize := fun _ => ret tt;
     predict_values := fun _ _ => (Int 100, Int 99, Int 101) |}.

(** Noon of 15 January 2024 for ['now'], whatever the position. *)
Definition sample_clock : Clock :=
  {| now := fun _ => date 2024 1 15 + 12 * 3600 * 1000000000;
     today := fun _ => date 2024 1 15 + 12 * 3600 * 1000000000 |}.


(** A provider that answers every request with the given body, at a time of
    the clock. *)
Definition replying_at (c : Clock) (body : list (string * Value)) : World :=
  {| requests_get := fun _ => ret {| json := ret body |}; clock := c |}.

Definition replying (body : list (string * Value)) : World :=
  replying_at sample_clock body.

Definition record (d v : Scalar) : RawRecord := [("date", d); ("nav", v)].

(** ** Notions used by the statements *)

(** [Kept p frame rows]: [rows] is [frame] with the rows failing [p] removed,
    the others unchanged and in their order. *)
Inductive Kept {A : Type} (p : A -> bool) : list A -> list A -> Prop :=
| Kept_nil : Kept p [] []
| Kept_keep r frame rows :
    p r = true -> Kept p frame rows -> Kept p (r :: frame) (r :: rows)
| Kept_drop r frame rows :
    p r = false -> Kept p frame rows -> Kept p (r :: frame) rows.

(** The computation raised. *)
Definition fails {A : Type} (c : Py A) : Prop := exists e, c = inl e.

(** The record sequence a run of [fetch_mutual_fund_data] receives. *)
Definition raw_records (w : World) (fund_code : string) : option (list RawRecord) :=
  match requests_get w (url_of fund_code) with
  | inr response =>
      match json response with
      | inr data =>
          match dict_get "data" data with
          | Some (VRecords recs) => Some recs
          | _ => None
          end
      | inl _ => None
      end
  | inl _ => None
  end.

(** The frame holds a single [y] column, all of whose entries are numbers
    other than [NaN]. *)
Definition clean_values (df : DataFrame) : Prop :=
  exists i,
    positions "y" (columns df) = [i]
    /\ Forall (fun r => exists x, nth i r missing = CScalar (SNum x)
                                  /\ is_nan x = false) (rows df).

(** The [date] and [nav] columns of the frame built from the records. *)
Definition date_column (recs : list RawRecord) : list Cell :=
  map (fun r => CScalar (field r "date")) recs.

Definition nav_column (recs : list RawRecord) : list Cell :=
  map (fun r => CScalar (field r "nav")) recs.

(** The value survives the coercion. *)
Definition valid_value (x : Number) : bool := negb (is_nan x).

(** The position of a label carried by one column. *)
Definition position_of (label : string) (cols : list string) : nat :=
  hd 0%nat (positions label cols).

(** The row of a record once its timestamp and its value are converted. *)
Definition clean_row (cols : list string) (p : RawRecord * option Timestamp * Number)
  : list Cell :=
  let '(r, t, v) := p in
  set_nth (position_of "nav" cols) (number_cell v)
          (set_nth (position_of "date" cols) (time_cell t) (row_of cols r)).

(** The records with their converted timestamps and values, those kept whose
    value is a number. *)
Definition valid_rows (recs : list RawRecord) (ts : list (option Timestamp))
           (vs : list Number) : list (RawRecord * option Timestamp * Number) :=
  filter (fun p => valid_value (snd p)) (combine (combine recs ts) vs).

Section Validity.
Context {P : Pandas}.

(** A timestamp pandas rejects wherever it stands: no column that holds it
    converts, at any time. *)
Definition rejected (s : Scalar) : Prop :=
  forall (c : Clock) (col : list Cell),
    In (CScalar s) col -> fails (to_datetime_column c col).
End Validity.

(** The model each path has built when it calls [fit], fitted. *)
Definition stock_fit {E : Engine} (data : History) : Py Prophet :=
  model <- stock_model ;; fit model data.

Definition mutual_fund_fit {E : Engine} (data : History) : Py Prophet :=
  model <- mutual_fund_model ;; fit model data.

(** ** Sample inputs *)

Definition two_day_history : History :=
  [(date 2023 12 29, Int 100); (date 2023 12 30, Int 101)].

(** The scenario of the normalizer: the second value is no number. *)
Definition bad_value_records : list RawRecord :=
  [record (SStr "2023-01-01") (SNum (Int 100));
   record (SStr "2023-01-02") (SStr "bad")].

(** Three rows, valid but for the timestamp of the second. *)
Definition bad_date_records : list RawRecord :=
  [record (SStr "2023-01-01") (SNum (Int 100));
   record (SStr "bad") (SNum (Int 101));
   record (SStr "2023-01-03") (SNum (Int 102))].

(** The sequence without the row whose timestamp is no date. *)
Definition good_date_records : list RawRecord :=
  [record (SStr "2023-01-01") (SNum (Int 100));
   record (SStr "2023-01-03") (SNum (Int 102))].


(** Daily values followed by one more, two years and five months later. *)
Definition long_history : History :=
  [(date 2021 1 1, Int 100); (date 2021 1 2, Int 101); (date 2023 6 1, Int 102)].

(** A single row with a valid value and a timestamp that is no date. *)
Definition one_bad_date_record : list RawRecord :=
  [record (SStr "bad") (SNum (Int 100))].

(** A reply whose decoding raises an exception without arguments, such as
    [MemoryError()]: its [str] is empty. *)
Definition undecodable : World :=
  {| requests_get := fun _ =>
       ret {| json := raise (LibraryError "MemoryError" EmptyString) |};
     clock := sample_clock |}.

(** A forecast with one row per day from [start], [n] days long. *)
Definition daily_forecast (start : Timestamp) (n : nat) : list ForecastRow :=
  map (fun k => {| ds := start + Z.of_nat k * ns_per_day; yhat := Int 100;
                   yhat_lower := Int 99; yhat_upper := Int 101 |}) (seq 0 n).

(** ** The two branches of the Predict page *)

(** What a branch puts on the page. *)
Inductive Widget : Type :=
| st_write (text : string)
| st_error (text : string)
| st_dataframe (cells : list (Timestamp * Number * Number * Number))
| st_pyplot (figure : list ForecastRow).

Definition Screen : Type := list Widget.

(** A step of the page: it adds to the screen, then returns or raises. *)
Definition UI (A : Type) : Type := Screen -> Screen * Py A.

Definition ui_ret {A : Type} (a : A) : UI A := fun s => (s, ret a).

Definition ui_bind {A B : Type} (c : UI A) (k : A -> UI B) : UI B :=
  fun s => match c s with
           | (s', inl e) => (s', inl e)
           | (s', inr a) => k a s'
           end.

Notation "x <~ c ;; k" := (ui_bind c (fun x => k))
  (at level 61, c at next level, right associativity).

(** A library call: nothing is shown. *)
Definition lift {A : Type} (c : Py A) : UI A := fun s => (s, c).

(** A call of Streamlit that shows a widget. *)
Definition show (w : Widget) : UI unit := fun s => (s ++ [w], ret tt).

(** [try: body except Exception as e: handler]: what the body has shown
    before it raised stays on the page. *)
Definition try_except (body : UI unit) (handler : PyExn -> UI unit) : UI unit :=
  fun s => match body s with
           | (s', inl e) => handler e s'
           | (s', inr _) => (s', ret tt)
           end.

(** The page after a branch has run. *)
Definition run (branch : UI unit) : Screen := fst (branch []).

(** What the branches take from the libraries besides the conversions and
    the engine: lines 66 to 71, the [ds] and [y] columns of the daily history
    of a ticker, or the exception raised on the way; the format [:.2f] of a
    value; and the [ds] and [y] columns of a frame as [fit] reads them, or
    the exception [fit] raises on a frame it does not accept. *)
Class Runtime : Type := {
  yf_history : string -> Py History;
  format_2f : Cell -> Py string;
  read_history : DataFrame -> Py History
}.

(** [series.iloc[-1]] *)
Fixpoint iloc_last {A : Type} (l : list A) : Py A :=
  match l with
  | [] => raise (LibraryError "IndexError"
                   "single positional indexer is out-of-bounds")
  | [x] => ret x
  | _ :: l' => iloc_last l'
  end.

(** [mf_data['y'].iloc[-1]] on a frame; where the label is carried by
    several columns the last row is no scalar and its format raises. *)
Definition last_y (df : DataFrame) : Py Cell :=
  sel <- getitem df "y" ;;
  match sel with
  | Series cells => iloc_last cells
  | SubFrame _ =>
      match rows df with
      | [] => raise (LibraryError "IndexError"
                       "single positional indexer is out-of-bounds")
      | _ :: _ => raise (TypeError
                    "unsupported format string passed to Series.__format__")
      end
  end.

Definition mutual_fund_retry : string := ". Please enter a valid mutual fund code.".
Definition stock_retry : string :=
  ". Please enter a valid stock ticker (e.g., TCS.NS, RELIANCE.NS).".

Section Branches.
Context {P : Pandas} {E : Engine} {R : Runtime}.

(** Lines 116 to 156. *)
Definition mutual_fund_branch (w : World) (fund_code : string) : UI unit :=
  try_except
    (let '(mf_data, error) := fetch_mutual_fund_data w fund_code in
     match error with
     | Some (String c msg) =>
         show (st_error ("Error: " ++ String c msg ++ mutual_fund_retry)%string)
     | _ =>
         match mf_data with
         | None => lift (raise (TypeError "'NoneType' object is not subscriptable"))
         | Some df =>
             live_price <~ lift (last_y df) ;;
             price <~ lift (format_2f live_price) ;;
             _ <~ show (st_write ("**Live Mutual Fund Price for " ++ fund_code
                                  ++ ":** " ++ price ++ " INR")%string) ;;
             data <~ lift (read_history df) ;;
             d <~ lift (mutual_fund_forecast fund_code data) ;;
             _ <~ show (st_write (caption d)) ;;
             _ <~ show (st_dataframe (table d)) ;;
             show (st_pyplot (plotted d))
         end
     end)
    (fun e => show (st_error ("Error: " ++ str_exn e ++ mutual_fund_retry)%string)).

(** Lines 64 to 110, from the history of the ticker on. *)
Definition stock_branch (ticker : string) : UI unit :=
  try_except
    (stock_data <~ lift (yf_history ticker) ;;
     live_price <~ lift (iloc_last (map snd stock_data)) ;;
     price <~ lift (format_2f (CScalar (SNum live_price))) ;;
     _ <~ show (st_write ("**Live Stock Price for " ++ ticker
                          ++ ":** " ++ price ++ " INR")%string) ;;
     d <~ lift (stock_forecast ticker stock_data) ;;
     _ <~ show (st_write (caption d)) ;;
     _ <~ show (st_dataframe (table d)) ;;
     show (st_pyplot (plotted d)))
    (fun e => show (st_error ("Error: " ++ str_exn e ++ stock_retry)%string)).
End Branches.

(** ** Further notions and sample inputs *)

(** The decoded body a run receives. *)
Definition reply_body (w : World) (fund_code : string)
  : option (list (string * Value)) :=
  match requests_get w (url_of fund_code) with
  | inr response =>
      match json response with
      | inr data => Some data
      | inl _ => None
      end
  | inl _ => None
  end.

(** The label of a column after line 20. *)
Definition renamed (c : string) : string :=
  match dict_get c [("date", "ds"); ("nav", "y")] with
  | Some c' => c'
  | None => c
  end.

(** The four columns of the table. *)
Definition four_columns (r : ForecastRow) : Timestamp * Number * Number * Number :=
  (ds r, yhat r, yhat_lower r, yhat_upper r).

(** The model both paths hand to [fit]. *)
Definition model_for_fit : Prophet :=
  Prophet_init (holidays_kwargs (make_holidays_df [2021; 2022; 2023; 2024] "IN")).

(** A record whose timestamp is absent from the reply. *)
Definition null_date_records : list RawRecord :=
  [record (SStr "2023-01-01") (SNum (Int 100));
   record SNull (SNum (Int 101));
   record (SStr "2023-01-03") (SNum (Int 102))].


(** A history that ends in September 2023. *)
Definition old_history : History :=
  [(date 2023 9 1, Int 100); (date 2023 9 2, Int 101)].

Definition clean_pair (i j : nat) (r : list Cell) : Py (Timestamp * Number) :=
  match nth i r missing, nth j r missing with
  | CTime t, CScalar (SNum x) => ret (t, x)
  | _, _ => raise (ValueError "Found NaN in column ds.")
  end.

Fixpoint clean_pairs (i j : nat) (rs : list (list Cell)) : Py History :=
  match rs with
  | [] => ret []
  | r :: rs' =>
      p <- clean_pair i j r ;;
      ps <- clean_pairs i j rs' ;;
      ret (p :: ps)
  end.

(** A runtime for the examples: every ticker has the two-day history, a
    value is shown by its integer part, and a frame is read when it has one
    [ds] and one [y] column, of timestamps and of numbers. *)
Definition sample_runtime : Runtime :=
  {| yf_history := fun _ => ret two_day_history;
     format_2f := fun c =>
       match c with
       | CScalar (SNum (Int n)) =>
           ret (NilZero.string_of_int (Z.to_int n) ++ ".00")%string
       | _ => ret "nan"
       end;
     read_history := fun df =>
       match positions "ds" (columns df), positions "y" (columns df) with
       | [i], [j] => clean_pairs i j (rows df)
       | _, _ => raise (ValueError "Found NaN in column ds.")
       end |}.

(** A runtime in which no ticker has any history. *)
Definition no_history_runtime : Runtime :=
  {| yf_history := fun _ => ret [];
     format_2f := format_2f (Runtime := sample_runtime);
     read_history := read_history (Runtime := sample_runtime) |}.

(** A runtime in which every ticker has a single day of history. *)
Definition one_day_runtime : Runtime :=
  {| yf_history := fun _ => ret [(date 2023 12 29, Int 100)];
     format_2f := format_2f (Runtime := sample_runtime);
     read_history := read_history (Runtime := sample_runtime) |}.

(** The three pages a branch can leave. *)
Definition page_shape (retry : string) (s : Screen) : Prop :=
  (exists e, s = [st_error ("Error: " ++ e ++ retry)%string])
  \/ (exists live e, s = [st_write live; st_error ("Error: " ++ e ++ retry)%string])
  \/ (exists live d,
        s = [st_write live; st_write (caption d);
             st_dataframe (table d); st_pyplot (plotted d)]
        /\ table d = map four_columns (plotted d)
        /\ Forall (fun r => 2024 <= year (ds r)) (plotted d)).

(** * Properties *)

Unset Implicit Arguments.

(** ** The result filter *)

Lemma bind_ret {A B : Type} (a : A) (k : A -> Py B) : bind (ret a) k = k a.
Proof. reflexivity. Qed.

Lemma getitem_mask_map {A : Type} (p : A -> bool) (frame : list A) :
  getitem_mask frame (map p frame) = ret (filter p frame).
Proof.
  induction frame as [| r frame IH]; simpl.
  - reflexivity.
  - rewrite IH. simpl. destruct (p r); reflexivity.
Qed.

Lemma filter_from_year_filter (cutoff : Z) (forecast : list ForecastRow) :
  filter_from_year cutoff forecast
  = ret (filter (fun r => cutoff <=? year (ds r)) forecast).
Proof.
  unfold filter_from_year, year_mask. rewrite map_map.
  apply getitem_mask_map.
Qed.

Lemma filter_Kept {A : Type} (p : A -> bool) (frame : list A) :
  Kept p frame (filter p frame).
Proof.
  induction frame as [| r frame IH]; simpl.
  - constructor.
  - destruct (p r) eqn:Hp; constructor; assumption.
Qed.

Lemma Kept_unique {A : Type} (p : A -> bool) (frame rows : list A) :
  Kept p frame rows -> rows = filter p frame.
Proof.
  induction 1 as [| r frame rows Hp _ IH | r frame rows Hp _ IH]; simpl.
  - reflexivity.
  - rewrite Hp, IH. reflexivity.
  - rewrite Hp. exact IH.
Qed.

Lemma filter_length_mono {A : Type} (p q : A -> bool) (l : list A) :
  (forall a, q a = true -> p a = true) ->
  (List.length (filter q l) <= List.length (filter p l))%nat.
Proof.
  intros Hqp. induction l as [| a l IH]; simpl.
  - lia.
  - destruct (q a) eqn:Hq.
    + rewrite (Hqp a Hq). simpl. lia.
    + destruct (p a); simpl; lia.
Qed.

(** C2. For every forecast, the filter with the cutoff year 2024 returns, and
    what it returns is the forecast with exactly the rows of a year before
    2024 removed: the rows of a year from 2024 on are kept unchanged, in
    their order, and nothing else is returned. *)
Theorem forecast_filtered_keeps_2024_onwards (forecast : list ForecastRow) :
  exists rows,
    forecast_filtered forecast = ret rows
    /\ Kept (fun r => 2024 <=? year (ds r)) forecast rows
    /\ (forall r, In r rows <-> In r forecast /\ 2024 <= year (ds r))
    /\ (forall rows', Kept (fun r => 2024 <=? year (ds r)) forecast rows' ->
                      rows' = rows).
Proof.
  exists (filter (fun r => 2024 <=? year (ds r)) forecast).
  split; [apply filter_from_year_filter |].
  split; [apply filter_Kept |].
  split.
  - intros r. rewrite filter_In, Z.leb_le. reflexivity.
  - intros rows' H. apply Kept_unique. exact H.
Qed.

(** The scenario of the result filter: of a daily forecast from 2023-10-01
    to 2024-03-01, the rows from 2024-01-01 on are retained. *)
Example forecast_filtered_scenario :
  forecast_filtered (daily_forecast (date 2023 10 1) 153)
  = ret (daily_forecast (date 2024 1 1) 61)
  /\ ds (last (daily_forecast (date 2023 10 1) 153)
              {| ds := 0; yhat := NaN; yhat_lower := NaN; yhat_upper := NaN |})
     = date 2024 3 1.
Proof. split; vm_compute; reflexivity. Qed.

(** C8. For every forecast and cutoff years [c1 <= c2], both filters return
    and the filter with [c2] returns at most as many rows as the one with
    [c1]. *)
Theorem filter_from_year_monotone (forecast : list ForecastRow) (c1 c2 : Z) :
  c1 <= c2 ->
  exists rows1 rows2,
    filter_from_year c1 forecast = ret rows1
    /\ filter_from_year c2 forecast = ret rows2
    /\ (List.length rows2 <= List.length rows1)%nat.
Proof.
  intros Hc.
  exists (filter (fun r => c1 <=? year (ds r)) forecast),
         (filter (fun r => c2 <=? year (ds r)) forecast).
  repeat split; try apply filter_from_year_filter.
  apply filter_length_mono. intros r Hr.
  apply Z.leb_le. apply Z.leb_le in Hr. lia.
Qed.

Lemma filter_from_year_monotone_witness :
  2023 <= 2024
  /\ exists rows1 rows2,
    filter_from_year 2023 (daily_forecast (date 2023 12 30) 4) = ret rows1
    /\ filter_from_year 2024 (daily_forecast (date 2023 12 30) 4) = ret rows2
    /\ (List.length rows2 <= List.length rows1)%nat.
Proof.
  split; [lia |].
  apply (filter_from_year_monotone (daily_forecast (date 2023 12 30) 4) 2023 2024).
  lia.
Defined.

(** C6, as the code has it. The filter and the presenter have no failure
    path: for every forecast, empty or not, and also when no row survives
    the filter, they return the filtered rows as the table of four columns
    and as the frame to plot. *)
Theorem present_never_fails (title : string) (forecast : list ForecastRow) :
  exists d,
    present title forecast = ret d
    /\ plotted d = filter (fun r => 2024 <=? year (ds r)) forecast
    /\ table d = map (fun r => (ds r, yhat r, yhat_lower r, yhat_upper r)) (plotted d)
    /\ ~ fails (present title forecast).
Proof.
  unfold present, forecast_filtered. rewrite filter_from_year_filter.
  rewrite bind_ret. eexists. split; [reflexivity |].
  simpl. repeat split. intros [e He]. discriminate He.
Qed.

(** C6, as stated, is refuted: on the empty forecast the presenter returns
    an empty table and raises nothing. *)
Lemma present_empty_forecast_succeeds :
  present "t" [] = ret {| caption := "t"; table := []; plotted := [] |}
  /\ ~ (forall (title : string) (forecast : list ForecastRow),
          fails (present title forecast) <-> forecast = []).
Proof.
  split; [reflexivity |].
  intros H. destruct (proj2 (H "t" []) eq_refl) as [e He].
  discriminate He.
Qed.

(** ** The mutual-fund source and its normalizer *)

Section FetchProperties.
Context {P : Pandas}.

Lemma fetch_try_records (w : World) (fund_code : string) (recs : list RawRecord) :
  raw_records w fund_code = Some recs ->
  fetch_try w fund_code
  = match recs with
    | [] => ret (None, Some NoDataError)
    | _ :: _ => normalize (clock w) (VRecords recs)
    end.
Proof.
  unfold raw_records, fetch_try, dict_getitem.
  destruct (requests_get w (url_of fund_code)) as [e | response]; [discriminate |].
  simpl. destruct (json response) as [e | data]; [discriminate |].
  simpl. destruct (dict_get "data" data) as [[s | recs'] |]; try discriminate.
  intros H. injection H as ->. simpl. destruct recs; reflexivity.
Qed.

(** C4. Whenever the provider's reply decodes to a body whose [data] member
    is the empty array, the function returns no series and the message of
    the no-data failure. *)
Theorem empty_data_is_no_data (w : World) (fund_code : string) :
  raw_records w fund_code = Some [] ->
  fetch_mutual_fund_data w fund_code = (None, Some NoDataError).
Proof.
  intros H. unfold fetch_mutual_fund_data.
  rewrite (fetch_try_records _ _ _ H). reflexivity.
Qed.

End FetchProperties.

(** *** Frames built from records *)

Lemma mem_str_In (k : string) (l : list string) : mem_str k l = true <-> In k l.
Proof.
  unfold mem_str. rewrite existsb_exists. split.
  - intros [x [Hx He]]. apply String.eqb_eq in He. subst. exact Hx.
  - intros H. exists k. split; [exact H | apply String.eqb_refl].
Qed.

Lemma add_keys_seen (r : RawRecord) (seen : list string) (k : string) :
  In k seen -> In k (add_keys seen r).
Proof.
  unfold add_keys. revert seen.
  induction (map fst r) as [| k' ks IH]; intros seen H; simpl.
  - exact H.
  - apply IH. destruct (mem_str k' seen); [exact H |].
    apply in_or_app. left. exact H.
Qed.

Lemma add_keys_member (r : RawRecord) (seen : list string) (k : string) :
  In k (map fst r) -> In k (add_keys seen r).
Proof.
  unfold add_keys. revert seen.
  induction (map fst r) as [| k' ks IH]; intros seen H; simpl.
  - destruct H.
  - destruct H as [-> | H]; [| apply IH; exact H].
    assert (Hin : In k (if mem_str k seen then seen else seen ++ [k])).
    { destruct (mem_str k seen) eqn:Hm.
      - apply mem_str_In. exact Hm.
      - apply in_or_app. right. left. reflexivity. }
    clear IH. revert Hin.
    generalize (if mem_str k seen then seen else seen ++ [k]).
    induction ks as [| k'' ks IH]; intros acc Hin; simpl.
    + exact Hin.
    + apply IH. destruct (mem_str k'' acc); [exact Hin |].
      apply in_or_app. left. exact Hin.
Qed.

Lemma add_keys_NoDup (r : RawRecord) (seen : list string) :
  NoDup seen -> NoDup (add_keys seen r).
Proof.
  unfold add_keys. revert seen.
  induction (map fst r) as [| k ks IH]; intros seen H; simpl.
  - exact H.
  - apply IH. destruct (mem_str k seen) eqn:Hm; [exact H |].
    apply NoDup_app; [exact H | repeat constructor; intros [] |].
    intros a Ha [<- | []].
    apply mem_str_In in Ha. congruence.
Qed.

Lemma columns_member (recs : list RawRecord) (r : RawRecord) (k : string) :
  In r recs -> In k (map fst r) -> In k (columns_of recs).
Proof.
  unfold columns_of. generalize (@nil string) as seen.
  induction recs as [| r' recs IH]; intros seen Hr Hk; simpl.
  - destruct Hr.
  - destruct Hr as [-> | Hr]; [| apply IH; assumption].
    clear IH. generalize (add_keys_member r seen k Hk).
    generalize (add_keys seen r) as acc. clear.
    induction recs as [| r' recs IH]; intros acc H; simpl.
    + exact H.
    + apply IH. apply add_keys_seen. exact H.
Qed.

Lemma columns_NoDup (recs : list RawRecord) : NoDup (columns_of recs).
Proof.
  unfold columns_of. generalize (NoDup_nil string).
  generalize (@nil string) as seen.
  induction recs as [| r recs IH]; intros seen H; simpl.
  - exact H.
  - apply IH. apply add_keys_NoDup. exact H.
Qed.

Lemma positions_from_absent (cols : list string) (base : nat) (k : string) :
  ~ In k cols -> positions_from base k cols = [].
Proof.
  revert base. induction cols as [| c cols IH]; intros base H; simpl.
  - reflexivity.
  - destruct (String.eqb_spec k c) as [-> | Hne].
    + exfalso. apply H. left. reflexivity.
    + apply IH. intros Hin. apply H. right. exact Hin.
Qed.

Lemma positions_from_unique (cols : list string) (base : nat) (k : string) :
  NoDup cols -> In k cols ->
  exists j, positions_from base k cols = [(base + j)%nat]
            /\ nth_error cols j = Some k.
Proof.
  revert base. induction cols as [| c cols IH]; intros base Hnd Hin.
  - destruct Hin.
  - inversion Hnd as [| c' cols' Hc Hnd']; subst. simpl.
    destruct (String.eqb_spec k c) as [-> | Hne].
    + exists 0%nat. rewrite (positions_from_absent _ (S base) _ Hc).
      rewrite Nat.add_0_r. split; reflexivity.
    + destruct Hin as [-> | Hin]; [congruence |].
      destruct (IH (S base) Hnd' Hin) as [j [Hp Hj]].
      exists (S j). rewrite Hp, Nat.add_succ_r. split; [reflexivity | exact Hj].
Qed.

Lemma dict_get_member {V : Type} (k : string) (d : list (string * V)) (v : V) :
  dict_get k d = Some v -> In k (map fst d).
Proof.
  revert v. induction d as [| [k' v'] d IH]; intros v; simpl.
  - discriminate.
  - destruct (dict_get k d) as [v'' |].
    + intros _. right. apply (IH v''). reflexivity.
    + destruct (String.eqb_spec k k') as [-> | _]; [| discriminate].
      intros _. left. reflexivity.
Qed.

Lemma column_at_records (recs : list RawRecord) (i : nat) (k : string) :
  nth_error (columns_of recs) i = Some k ->
  column_at i (frame_of_records recs) = map (fun r => CScalar (field r k)) recs.
Proof.
  intros Hi. unfold column_at, frame_of_records, row_of. simpl.
  rewrite map_map. apply map_ext. intros r.
  apply nth_error_nth.
  rewrite (map_nth_error _ _ _ Hi). reflexivity.
Qed.

Lemma getitem_Series (df : DataFrame) (label : string) (cells : list Cell) :
  getitem df label = ret (Series cells) ->
  exists i, positions label (columns df) = [i] /\ cells = column_at i df.
Proof.
  unfold getitem.
  destruct (positions label (columns df)) as [| i [| j ps]]; try discriminate.
  intros H. injection H as <-. exists i. split; reflexivity.
Qed.

Lemma nth_set_nth (i : nat) (c d : Cell) (r : list Cell) :
  nth i (set_nth i c r) d = c \/ nth i (set_nth i c r) d = d.
Proof.
  revert r. induction i as [| i IH]; intros [| x r]; simpl; auto.
Qed.

Lemma set_column_map {A : Type} (i : nat) (f : A -> list Cell) (g : A -> Cell)
      (l : list A) :
  set_column i (map g l) (map f l) = map (fun a => set_nth i (g a) (f a)) l.
Proof.
  induction l as [| a l IH]; simpl; [reflexivity |].
  rewrite IH. reflexivity.
Qed.

Lemma add_keys_source (r : RawRecord) (seen : list string) (k : string) :
  In k (add_keys seen r) -> In k seen \/ In k (map fst r).
Proof.
  unfold add_keys. revert seen.
  induction (map fst r) as [| k' ks IH]; intros seen H; simpl in H.
  - left. exact H.
  - destruct (IH _ H) as [Hs | Hk]; [| right; right; exact Hk].
    destruct (mem_str k' seen); [left; exact Hs |].
    apply in_app_or in Hs. destruct Hs as [Hs | [<- | []]].
    + left. exact Hs.
    + right. left. reflexivity.
Qed.

Lemma columns_source (recs : list RawRecord) (k : string) :
  In k (columns_of recs) -> exists r, In r recs /\ In k (map fst r).
Proof.
  unfold columns_of.
  assert (H : forall seen, In k (fold_left add_keys recs seen) ->
                           In k seen \/ exists r, In r recs /\ In k (map fst r)).
  { induction recs as [| r recs IH]; intros seen Hin; simpl in Hin.
    - left. exact Hin.
    - destruct (IH _ Hin) as [Hs | [r' [Hr' Hk]]].
      + destruct (add_keys_source _ _ _ Hs) as [Hseen | Hk].
        * left. exact Hseen.
        * right. exists r. split; [left; reflexivity | exact Hk].
      + right. exists r'. split; [right; exact Hr' | exact Hk]. }
  intros Hin. destruct (H [] Hin) as [[] | Hex]. exact Hex.
Qed.

Lemma renamed_spec (c : string) :
  renamed c = if String.eqb c "nav" then "y"
              else if String.eqb c "date" then "ds" else c.
Proof.
  unfold renamed. simpl.
  destruct (String.eqb c "nav"); [reflexivity |].
  destruct (String.eqb c "date"); reflexivity.
Qed.

Lemma renamed_y (c : string) : renamed c = "y" -> c = "nav" \/ c = "y".
Proof.
  rewrite renamed_spec.
  destruct (String.eqb_spec c "nav") as [-> | _]; [left; reflexivity |].
  destruct (String.eqb_spec c "date") as [-> | _]; [discriminate |].
  intros ->. right. reflexivity.
Qed.

Lemma renamed_not_source (c : string) : renamed c <> "date" /\ renamed c <> "nav".
Proof.
  rewrite renamed_spec.
  destruct (String.eqb_spec c "nav") as [-> | Hn]; [split; discriminate |].
  destruct (String.eqb_spec c "date") as [-> | Hd]; [split; discriminate |].
  split; assumption.
Qed.

Lemma rename_columns (df : DataFrame) :
  columns (rename df [("date", "ds"); ("nav", "y")]) = map renamed (columns df).
Proof. reflexivity. Qed.

Lemma setitem_present (df : DataFrame) (label : string) (cells : list Cell) (i : nat) :
  positions label (columns df) = [i] ->
  setitem df label cells
  = {| columns := columns df; rows := set_column i cells (rows df) |}.
Proof. intros H. unfold setitem. rewrite H. reflexivity. Qed.

Lemma set_nth_length {A : Type} (i : nat) (x : A) (l : list A) :
  List.length (set_nth i x l) = List.length l.
Proof.
  revert l. induction i as [| i IH]; intros [| y l]; simpl; try reflexivity.
  rewrite IH. reflexivity.
Qed.

Lemma set_column_length (i : nat) (cells : list Cell) (rs : list (list Cell)) :
  List.length (set_column i cells rs) = List.length rs.
Proof.
  revert cells. induction rs as [| r rs IH]; intros [| c cells]; simpl;
    try reflexivity.
  rewrite IH. reflexivity.
Qed.

Lemma set_column_widths (n i : nat) (cells : list Cell) (rs : list (list Cell)) :
  Forall (fun r => List.length r = n) rs ->
  Forall (fun r => List.length r = n) (set_column i cells rs).
Proof.
  intros H. revert cells.
  induction H as [| r rs Hr Hrs IH]; intros [| c cells]; simpl.
  - constructor.
  - constructor.
  - constructor; assumption.
  - constructor; [rewrite set_nth_length; exact Hr | apply IH].
Qed.

Lemma dropna_present (df : DataFrame) (label : string) (i : nat) :
  positions label (columns df) = [i] ->
  dropna df label
  = ret {| columns := columns df;
           rows := filter (fun r => negb (isna (nth i r missing))) (rows df) |}.
Proof.
  intros H. unfold dropna. rewrite H. unfold ret. do 2 f_equal.
  apply filter_ext. intros r. simpl. rewrite orb_false_r. reflexivity.
Qed.

(** *** The normalizer *)

Section NormalizeProperties.
Context {P : Pandas}.

Lemma set_column_numeric (i : nat) (xs : list Number) (rs : list (list Cell)) :
  List.length xs = List.length rs ->
  Forall (fun r => exists x, nth i r missing = CScalar (SNum x))
         (set_column i (map number_cell xs) rs).
Proof.
  revert xs. induction rs as [| r rs IH]; intros [| x xs] Hlen;
    try discriminate Hlen; simpl; constructor.
  - destruct (nth_set_nth i (number_cell x) missing r) as [H | H]; rewrite H.
    + exists x. reflexivity.
    + exists NaN. reflexivity.
  - apply IH. injection Hlen as Hlen. exact Hlen.
Qed.

(** Whatever the normalizer returns without raising is either the
    insufficient-data message or a frame of at least two rows with clean
    values. *)
Lemma normalize_returns (c : Clock) (d : Value) (odf : option DataFrame)
      (oerr : option string) :
  normalize c d = ret (odf, oerr) ->
  (odf = None /\ oerr = Some InsufficientDataError)
  \/ (exists df, odf = Some df /\ oerr = None
                 /\ (2 <= len df)%nat /\ clean_values df).
Proof.
  unfold normalize.
  destruct (pd_DataFrame d) as [e | df0]; [discriminate |]. simpl.
  destruct (getitem df0 "date") as [e | sel]; [discriminate |]. simpl.
  destruct (to_datetime c sel) as [e | dates]; [discriminate |]. simpl.
  generalize (rename (setitem df0 "date" dates) [("date", "ds"); ("nav", "y")]).
  intros df2.
  destruct (getitem df2 "y") as [e | [cells | ps]] eqn:Hy; try discriminate.
  simpl.
  destruct (getitem_Series _ _ _ Hy) as [i [Hi ->]].
  unfold dropna, setitem. rewrite Hi. simpl. rewrite Hi. simpl.
  destruct (_ <? 2)%nat eqn:Hlen; intros H; injection H as <- <-.
  - left. split; reflexivity.
  - right. eexists. split; [reflexivity |]. split; [reflexivity |].
    apply Nat.ltb_ge in Hlen. split; [exact Hlen |].
    exists i. simpl. split; [exact Hi |].
    apply Forall_forall. intros r Hr. apply filter_In in Hr.
    destruct Hr as [Hr Hna].
    pose proof (set_column_numeric i (to_numeric_column (column_at i df2))
                                   (rows df2)) as Hnum.
    rewrite to_numeric_length in Hnum. unfold column_at in Hnum.
    rewrite length_map in Hnum. specialize (Hnum eq_refl).
    rewrite Forall_forall in Hnum. destruct (Hnum r Hr) as [x Hx].
    exists x. split; [exact Hx |].
    rewrite Hx in Hna. simpl in Hna. rewrite orb_false_r in Hna.
    apply negb_true_iff in Hna. exact Hna.
Qed.

Lemma NoDataError_nonempty : NoDataError <> EmptyString.
Proof. discriminate. Qed.

Lemma InsufficientDataError_nonempty : InsufficientDataError <> EmptyString.
Proof. discriminate. Qed.

(** C10, as the code has it. The function raises nothing and returns a pair
    with exactly one [None]: a frame of at least two rows whose values are
    numbers other than [NaN] and no message; or no frame and a message,
    which is one of the two fixed, non-empty texts when the body of the
    [try] returned, and the text of the caught exception when it raised. *)
Theorem fetch_mutual_fund_data_outcome (w : World) (fund_code : string) :
  (exists df, fetch_mutual_fund_data w fund_code = (Some df, None)
              /\ (2 <= len df)%nat /\ clean_values df)
  \/ (exists m, fetch_mutual_fund_data w fund_code = (None, Some m)
                /\ ((fetch_try w fund_code = ret (None, Some m)
                     /\ (m = NoDataError \/ m = InsufficientDataError)
                     /\ m <> EmptyString)
                    \/ (exists e, fetch_try w fund_code = raise e
                                  /\ m = str_exn e))).
Proof.
  unfold fetch_mutual_fund_data.
  destruct (fetch_try w fund_code) as [e | [odf oerr]] eqn:Htry.
  - right. exists (str_exn e). split; [reflexivity |].
    right. exists e. split; reflexivity.
  - unfold fetch_try in Htry.
    destruct (requests_get w (url_of fund_code)) as [e | response];
      [discriminate |]. simpl in Htry.
    destruct (json response) as [e | data]; [discriminate |]. simpl in Htry.
    destruct (dict_getitem data "data") as [e | d]; [discriminate |].
    simpl in Htry.
    destruct (truthy d); simpl in Htry.
    + destruct (normalize_returns _ _ _ _ Htry) as [[-> ->] | [df [-> [-> [Hl Hc]]]]].
      * right. exists InsufficientDataError. split; [reflexivity |].
        left. split; [reflexivity |]. split; [right; reflexivity |].
        apply InsufficientDataError_nonempty.
      * left. exists df. split; [reflexivity |]. split; assumption.
    + injection Htry as <- <-.
      right. exists NoDataError. split; [reflexivity |].
      left. split; [reflexivity |]. split; [left; reflexivity |].
      apply NoDataError_nonempty.
Qed.

Lemma getitem_records (recs : list RawRecord) (k : string) :
  In k (columns_of recs) ->
  exists j, positions k (columns_of recs) = [j]
            /\ nth_error (columns_of recs) j = Some k
            /\ getitem (frame_of_records recs) k
               = ret (Series (map (fun r => CScalar (field r k)) recs)).
Proof.
  intros Hcol.
  destruct (positions_from_unique _ 0%nat _ (columns_NoDup recs) Hcol)
    as [j [Hp Hj]].
  exists j. split; [exact Hp |]. split; [exact Hj |].
  unfold getitem, positions. simpl columns. rewrite Hp. simpl.
  rewrite (column_at_records _ _ _ Hj). reflexivity.
Qed.

Lemma getitem_date_records (recs : list RawRecord) (r : RawRecord) (s : Scalar) :
  In r recs ->
  dict_get "date" r = Some s ->
  getitem (frame_of_records recs) "date" = ret (Series (date_column recs)).
Proof.
  intros Hin Hget.
  assert (Hcol : In "date" (columns_of recs)).
  { apply (columns_member recs r); [exact Hin |].
    apply (dict_get_member _ _ _ Hget). }
  destruct (getitem_records recs "date" Hcol) as [j [_ [_ H]]]. exact H.
Qed.



(** C7, as the code has it. When some record of the sequence carries a
    timestamp pandas rejects, no row is dropped: the conversion of the
    timestamp column raises, the normalization as a whole raises that
    exception, and the function returns no series and the text of the
    exception, however many valid rows there are. *)
Theorem unparseable_timestamp_aborts
        (w : World) (fund_code : string) (recs : list RawRecord)
        (r : RawRecord) (s : Scalar) :
  raw_records w fund_code = Some recs ->
  In r recs ->
  dict_get "date" r = Some s ->
  rejected s ->
  exists e,
    to_datetime_column (clock w) (date_column recs) = raise e
    /\ normalize (clock w) (VRecords recs) = raise e
    /\ fetch_mutual_fund_data w fund_code = (None, Some (str_exn e)).
Proof.
  intros Hraw Hin Hget Hrej.
  assert (Hcell : In (CScalar s) (date_column recs)).
  { unfold date_column. apply in_map_iff. exists r. split; [| exact Hin].
    unfold field. rewrite Hget. reflexivity. }
  destruct (Hrej (clock w) _ Hcell) as [e He].
  assert (Hnorm : normalize (clock w) (VRecords recs) = raise e).
  { unfold normalize. simpl pd_DataFrame. rewrite bind_ret.
    rewrite (getitem_date_records recs r s Hin Hget). rewrite bind_ret.
    unfold to_datetime. rewrite He. reflexivity. }
  exists e. split; [exact He |]. split; [exact Hnorm |].
  unfold fetch_mutual_fund_data.
  rewrite (fetch_try_records _ _ _ Hraw).
  destruct recs as [| r0 recs0]; [destruct Hin |].
  rewrite Hnorm. reflexivity.
Qed.
End NormalizeProperties.

(** *** Sequences of records with a timestamp and a value *)

Lemma filter_map_commute {A B : Type} (p : B -> bool) (f : A -> B) (l : list A) :
  filter p (map f l) = map f (filter (fun a => p (f a)) l).
Proof.
  induction l as [| a l IH]; simpl; [reflexivity |].
  destruct (p (f a)); simpl; rewrite IH; reflexivity.
Qed.

Lemma set_column_combine {A B : Type} (i : nat) (f : A -> list Cell)
      (g : B -> Cell) (l : list A) (xs : list B) :
  List.length xs = List.length l ->
  set_column i (map g xs) (map f l)
  = map (fun p => set_nth i (g (snd p)) (f (fst p))) (combine l xs).
Proof.
  revert xs. induction l as [| a l IH]; intros [| x xs] Hlen;
    try discriminate Hlen; simpl; [reflexivity |].
  rewrite IH; [reflexivity |]. injection Hlen as Hlen. exact Hlen.
Qed.

Lemma map_fst_combine {A B C : Type} (f : A -> C) (l : list A) (xs : list B) :
  List.length xs = List.length l ->
  map (fun p => f (fst p)) (combine l xs) = map f l.
Proof.
  revert xs. induction l as [| a l IH]; intros [| x xs] Hlen;
    try discriminate Hlen; simpl; [reflexivity |].
  rewrite IH; [reflexivity |]. injection Hlen as Hlen. exact Hlen.
Qed.

Lemma nth_set_nth_other {A : Type} (i j : nat) (x d : A) (l : list A) :
  i <> j -> nth j (set_nth i x l) d = nth j l d.
Proof.
  revert j l. induction i as [| i IH]; intros [| j] [| y l] Hne; simpl;
    try reflexivity; try congruence.
  apply IH. congruence.
Qed.

Lemma nth_set_nth_same {A : Type} (i : nat) (x d : A) (l : list A) :
  (i < List.length l)%nat -> nth i (set_nth i x l) d = x.
Proof.
  revert l. induction i as [| i IH]; intros [| y l] Hlt; simpl in *;
    try lia; [reflexivity |].
  apply IH. lia.
Qed.

Lemma nth_row_of (cols : list string) (r : RawRecord) (j : nat) (k : string) :
  nth_error cols j = Some k ->
  nth j (row_of cols r) missing = CScalar (field r k).
Proof.
  intros Hj. unfold row_of. apply nth_error_nth.
  rewrite (map_nth_error _ _ _ Hj). reflexivity.
Qed.

Lemma positions_from_renamed (cols : list string) (base : nat) :
  ~ In "y" cols ->
  positions_from base "y" (map renamed cols) = positions_from base "nav" cols.
Proof.
  revert base. induction cols as [| c cols IH]; intros base Hy;
    cbn [map positions_from]; [reflexivity |].
  assert (Hrest : ~ In "y" cols) by (intros H; apply Hy; right; exact H).
  rewrite (IH (S base) Hrest).
  destruct (String.eqb_spec "nav" c) as [<- | Hnav].
  - reflexivity.
  - destruct (String.eqb_spec "y" (renamed c)) as [Hren | _]; [| reflexivity].
    symmetry in Hren. destruct (renamed_y _ Hren) as [-> | ->].
    + congruence.
    + exfalso. apply Hy. left. reflexivity.
Qed.

Lemma positions_from_renamed_date (cols : list string) (base : nat) :
  positions_from base "date" (map renamed cols) = [].
Proof.
  revert base. induction cols as [| c cols IH]; intros base;
    cbn [map positions_from]; [reflexivity |].
  destruct (String.eqb_spec "date" (renamed c)) as [H | _]; [| apply IH].
  symmetry in H. destruct (renamed_not_source c) as [Hd _]. congruence.
Qed.

Section RecordSequences.
Context {P : Pandas}.

(** On a sequence of records that gives the frame a [date] and a [nav]
    column and none labelled [y], and whose timestamp column converts, the
    normalizer is the removal of the rows whose value is not a number,
    followed by the test on the number of rows left. *)
Lemma normalize_records (c : Clock) (recs : list RawRecord)
      (ts : list (option Timestamp)) :
  In "date" (columns_of recs) ->
  In "nav" (columns_of recs) ->
  ~ In "y" (columns_of recs) ->
  to_datetime_column c (date_column recs) = ret ts ->
  normalize c (VRecords recs)
  = if (List.length (valid_rows recs ts (to_numeric_column (nav_column recs))) <? 2)%nat
    then ret (None, Some InsufficientDataError)
    else ret (Some {| columns := map renamed (columns_of recs);
                      rows := map (clean_row (columns_of recs))
                                  (valid_rows recs ts
                                     (to_numeric_column (nav_column recs))) |},
              None).
Proof.
  intros Hdate Hnav Hy Hconv.
  pose proof (@to_datetime_length _ _ _ _ Hconv) as Hts.
  unfold date_column in Hts. rewrite length_map in Hts.
  pose proof (to_numeric_length (nav_column recs)) as Hvs.
  unfold nav_column in Hvs at 2. rewrite length_map in Hvs.
  set (vs := to_numeric_column (nav_column recs)) in *.
  set (cols := columns_of recs).
  destruct (getitem_records recs "date" Hdate) as [i [Hi [Hith Hget]]].
  destruct (positions_from_unique _ 0%nat _ (columns_NoDup recs) Hnav)
    as [j [Hj Hjth]].
  simpl in Hj. fold cols in Hi, Hith, Hj, Hjth.
  assert (Hij : i <> j) by (intros ->; congruence).
  assert (Hjlt : (j < List.length cols)%nat).
  { apply nth_error_Some. congruence. }
  assert (Hpi : position_of "date" cols = i).
  { unfold position_of. rewrite Hi. reflexivity. }
  assert (Hpj : position_of "nav" cols = j).
  { unfold position_of, positions. rewrite Hj. reflexivity. }
  assert (Hyj : positions "y" (map renamed cols) = [j]).
  { unfold positions. rewrite (positions_from_renamed cols 0%nat Hy). exact Hj. }
  unfold normalize. simpl pd_DataFrame. rewrite bind_ret.
  rewrite Hget, bind_ret. unfold to_datetime. fold (date_column recs).
  rewrite Hconv, !bind_ret.
  rewrite (setitem_present (frame_of_records recs) "date" _ i Hi).
  set (rows1 := map (fun p : RawRecord * option Timestamp =>
                       set_nth i (time_cell (snd p)) (row_of cols (fst p)))
                    (combine recs ts)).
  assert (Hdf1 : rename {| columns := columns (frame_of_records recs);
                           rows := set_column i (map time_cell ts)
                                              (rows (frame_of_records recs)) |}
                        [("date", "ds"); ("nav", "y")]
                 = {| columns := map renamed cols; rows := rows1 |}).
  { unfold rename, frame_of_records. cbn [columns rows]. fold cols.
    rewrite (set_column_combine i (row_of cols) time_cell recs ts Hts).
    reflexivity. }
  rewrite Hdf1. clear Hdf1.
  assert (Hgety : getitem {| columns := map renamed cols; rows := rows1 |} "y"
                  = ret (Series (nav_column recs))).
  { unfold getitem. cbn [columns]. rewrite Hyj. unfold column_at. cbn [rows].
    unfold rows1. rewrite map_map. do 2 f_equal.
    unfold nav_column. rewrite <- (map_fst_combine _ recs ts Hts).
    apply map_ext. intros [r t]. cbn [fst snd].
    rewrite (nth_set_nth_other i j _ _ _ Hij).
    apply (nth_row_of cols r j "nav" Hjth). }
  rewrite Hgety, bind_ret. unfold to_numeric. rewrite bind_ret. fold vs.
  rewrite (setitem_present {| columns := map renamed cols; rows := rows1 |}
                           "y" _ j Hyj).
  cbn [columns rows]. unfold rows1.
  assert (Hlen1 : List.length vs = List.length (combine recs ts)).
  { rewrite length_combine, Hts, Nat.min_id. exact Hvs. }
  rewrite (set_column_combine j _ number_cell (combine recs ts) vs Hlen1).
  rewrite (dropna_present {| columns := map renamed cols; rows := _ |} "y" j Hyj),
    bind_ret. cbn [columns rows].
  assert (Hrows :
    filter (fun r => negb (isna (nth j r missing)))
      (map (fun p : RawRecord * option Timestamp * Number =>
              set_nth j (number_cell (snd p))
                (set_nth i (time_cell (snd (fst p))) (row_of cols (fst (fst p)))))
           (combine (combine recs ts) vs))
    = map (clean_row cols) (valid_rows recs ts vs)).
  { rewrite filter_map_commute. unfold valid_rows.
    rewrite (filter_ext (fun a : RawRecord * option Timestamp * Number =>
                           negb (isna (nth j (set_nth j (number_cell (snd a))
                             (set_nth i (time_cell (snd (fst a)))
                                (row_of cols (fst (fst a))))) missing)))
                        (fun p => valid_value (snd p))).
    - apply map_ext. intros [[r t] v]. unfold clean_row. rewrite Hpi, Hpj.
      reflexivity.
    - intros [[r t] v]. cbn [fst snd]. rewrite nth_set_nth_same.
      + reflexivity.
      + rewrite set_nth_length. unfold row_of. rewrite length_map. exact Hjlt. }
  rewrite Hrows. unfold len. cbn [rows]. rewrite length_map.
  reflexivity.
Qed.

(** C3, as the code has it. For a non-empty sequence of records that have a
    [date] and a [nav] member (in any order, and whatever else they hold but
    a member [y]) and whose timestamp column converts, the value column is
    coerced to numbers, every row whose value fails the coercion is dropped
    and none is replaced, and the function returns the insufficient-data
    message exactly when fewer than two valid rows remain; otherwise it
    returns the valid rows, in their order.  In particular two records the
    second of which has a value that is no number give that message. *)
Theorem insufficient_data_iff_fewer_than_two_valid
        (w : World) (fund_code : string) (recs : list RawRecord)
        (ts : list (option Timestamp)) :
  raw_records w fund_code = Some recs ->
  recs <> [] ->
  In "date" (columns_of recs) ->
  In "nav" (columns_of recs) ->
  ~ In "y" (columns_of recs) ->
  to_datetime_column (clock w) (date_column recs) = ret ts ->
  (fetch_mutual_fund_data w fund_code = (None, Some InsufficientDataError)
   <-> (List.length (valid_rows recs ts (to_numeric_column (nav_column recs))) < 2)%nat)
  /\ ((2 <= List.length (valid_rows recs ts (to_numeric_column (nav_column recs))))%nat ->
      fetch_mutual_fund_data w fund_code
      = (Some {| columns := map renamed (columns_of recs);
                 rows := map (clean_row (columns_of recs))
                             (valid_rows recs ts
                                (to_numeric_column (nav_column recs))) |}, None))
  /\ (forall r1 r2, recs = [r1; r2] ->
      nth 1 (to_numeric_column (nav_column recs)) NaN = NaN ->
      fetch_mutual_fund_data w fund_code = (None, Some InsufficientDataError)).
Proof.
  intros Hraw Hne Hdate Hnav Hy Hconv.
  pose proof (@to_datetime_length _ _ _ _ Hconv) as Hts.
  unfold date_column in Hts. rewrite length_map in Hts.
  pose proof (to_numeric_length (nav_column recs)) as Hvs.
  unfold nav_column in Hvs at 2. rewrite length_map in Hvs.
  assert (Htwo : forall r1 r2, recs = [r1; r2] ->
                 nth 1 (to_numeric_column (nav_column recs)) NaN = NaN ->
                 (List.length (valid_rows recs ts
                                 (to_numeric_column (nav_column recs))) < 2)%nat).
  { intros r1 r2 Hrecs H2. revert Hvs H2.
    generalize (to_numeric_column (nav_column recs)). intros vs Hvs H2.
    rewrite Hrecs in Hts, Hvs |- *.
    destruct ts as [| t1 [| t2 [| t3 ts]]]; try discriminate Hts.
    destruct vs as [| v1 [| v2 [| v3 vs]]]; try discriminate Hvs.
    simpl in H2. subst v2. unfold valid_rows. simpl.
    destruct (valid_value v1); simpl; lia. }
  unfold fetch_mutual_fund_data. rewrite (fetch_try_records _ _ _ Hraw).
  destruct recs as [| r0 recs0] eqn:Hrecs; [congruence |].
  rewrite <- Hrecs in *.
  rewrite (normalize_records (clock w) recs ts Hdate Hnav Hy Hconv).
  destruct (List.length (valid_rows recs ts _) <? 2)%nat eqn:Hlen.
  - apply Nat.ltb_lt in Hlen. split; [| split].
    + split; [intros _; exact Hlen | reflexivity].
    + intros H. lia.
    + reflexivity.
  - apply Nat.ltb_ge in Hlen. split; [| split].
    + split; [discriminate | intros H; lia].
    + intros _. reflexivity.
    + intros r1 r2 H1 H2.
      pose proof (Htwo r1 r2 H1 H2). lia.
Qed.
End RecordSequences.

(** ** The forecasting model and the future frame *)

Section ForecastProperties.
Context {E : Engine}.

Lemma with_seasonalities_same (m : Prophet) :
  m = with_seasonalities m (seasonalities m).
Proof. destruct m. reflexivity. Qed.

Lemma builtin_seasonality_keeps (m : Prophet) (nm : string) (p : Decimal) (order : Z) :
  exists l, builtin_seasonality m nm p order = with_seasonalities m l.
Proof.
  unfold builtin_seasonality. destruct (0 <? order).
  - eexists. reflexivity.
  - exists (seasonalities m). apply with_seasonalities_same.
Qed.

(** The seasonal components decided by [fit] leave the rest of the model as
    it is. *)
Lemma set_auto_seasonalities_keeps (m : Prophet) :
  exists l, set_auto_seasonalities m = with_seasonalities m l.
Proof.
  unfold set_auto_seasonalities. destruct (history m) as [h |].
  - cbv zeta.
    destruct (builtin_seasonality_keeps m "yearly" {| digits := 36525; scale := 2 |}
                (parse_seasonality_args m "yearly" (yearly_seasonality m)
                                        (span h <? 730 * ns_per_day) 10))
      as [l1 ->].
    set (m1 := with_seasonalities m l1).
    destruct (builtin_seasonality_keeps m1 "weekly" {| digits := 7; scale := 0 |}
                (parse_seasonality_args m1 "weekly" (weekly_seasonality m1)
                   ((span h <? 14 * ns_per_day)
                    || at_least (min_dt h) (7 * ns_per_day)) 3))
      as [l2 ->].
    set (m2 := with_seasonalities m1 l2).
    destruct (builtin_seasonality_keeps m2 "daily" {| digits := 1; scale := 0 |}
                (parse_seasonality_args m2 "daily" (daily_seasonality m2)
                   ((span h <? 2 * ns_per_day)
                    || at_least (min_dt h) ns_per_day) 4))
      as [l3 ->].
    exists l3. reflexivity.
  - exists (seasonalities m). apply with_seasonalities_same.
Qed.

Lemma fit_value (model fitted : Prophet) (data : History) :
  fit model data = ret fitted ->
  fitted = set_auto_seasonalities
             (set_history model
                (sort_values (filter (fun p => negb (is_nan (snd p))) data))
                (sort_unique (map fst data)))
  /\ (2 <= List.length data)%nat.
Proof.
  unfold fit. destruct (history model); [discriminate |].
  destruct (_ <? 2)%nat eqn:Hlen; [discriminate |].
  destruct (existsb _ _); [discriminate |].
  destruct (optimize _) as [e | []]; [discriminate |]. simpl.
  intros H. injection H as <-. split; [reflexivity |].
  apply Nat.ltb_ge in Hlen.
  pose proof (filter_length_le (fun p => negb (is_nan (snd p))) data). lia.
Qed.

Lemma fit_returns (model fitted : Prophet) (data : History) :
  fit model data = ret fitted ->
  exists l,
    fitted = with_seasonalities
               (set_history model
                  (sort_values (filter (fun p => negb (is_nan (snd p))) data))
                  (sort_unique (map fst data))) l
    /\ (2 <= List.length data)%nat.
Proof.
  intros Hfit. destruct (fit_value _ _ _ Hfit) as [-> Hlen].
  destruct (set_auto_seasonalities_keeps
              (set_history model
                 (sort_values (filter (fun p => negb (is_nan (snd p))) data))
                 (sort_unique (map fst data)))) as [l Hl].
  exists l. split; [exact Hl | exact Hlen].
Qed.

Lemma fit_and_predict_fitted (model fitted : Prophet) (data : History)
      (future : list Timestamp) :
  fit model data = ret fitted ->
  make_future_dataframe fitted 90 = ret future ->
  fit_and_predict (ret model) data = ret (fitted, future, predict fitted future).
Proof.
  intros Hfit Hfuture. unfold fit_and_predict.
  rewrite bind_ret, Hfit, bind_ret, Hfuture, bind_ret. reflexivity.
Qed.



Lemma filter_all {A : Type} (p : A -> bool) (l : list A) :
  Forall (fun a => p a = true) l -> filter p l = l.
Proof.
  induction 1 as [| a l Ha _ IH]; simpl; [reflexivity |].
  rewrite Ha, IH. reflexivity.
Qed.

(** The dates after [start] in a range of [n + 1] steps from [start]. *)
Lemma future_dates (start freq : Z) (n : nat) :
  0 < freq ->
  firstn n (filter (fun t => start <? t) (date_range start (n + 1) freq))
  = map (fun k => start + Z.of_nat k * freq) (seq 1 n).
Proof.
  intros Hf. unfold date_range. rewrite Nat.add_1_r. simpl seq. simpl map.
  simpl filter.
  replace (start <? start + 0) with false by (symmetry; apply Z.ltb_ge; lia).
  rewrite filter_all.
  - apply firstn_all2. rewrite length_map, length_seq. lia.
  - apply Forall_forall. intros t Ht. apply in_map_iff in Ht.
    destruct Ht as [k [<- Hk]]. apply in_seq in Hk.
    apply Z.ltb_lt. nia.
Qed.

Lemma date_range_shift (start freq : Z) (n : nat) :
  map (fun k => start + Z.of_nat k * freq) (seq 1 n)
  = date_range (start + freq) n freq.
Proof.
  unfold date_range. rewrite <- seq_shift, map_map.
  apply map_ext. intros k. lia.
Qed.



(** C1, against the code. On both paths the model handed to [fit] is the one
    constructed last, from the holiday table alone: whatever the series, the
    fitted model has the constructor's defaults, additive seasonality and the
    three seasonal components on ['auto'], so that [fit] decides them from
    the span and the spacing of the series: a yearly component from two
    years of history on, a weekly one from two weeks on when the series is
    spaced closer than a week, a daily one from two days on when it is
    spaced closer than a day, all of them additive.  None of the seasonal
    components added before is in the model; only the changepoint scale
    agrees with the configuration written first, being the default too. *)
Theorem fitted_model_has_defaults (data : History) (fitted : Prophet) :
  stock_fit data = ret fitted \/ mutual_fund_fit data = ret fitted ->
  exists h,
    history fitted = Some h
    /\ h = sort_values (filter (fun p => negb (is_nan (snd p))) data)
    /\ seasonality_mode fitted = additive
    /\ seasonality_mode fitted <> multiplicative
    /\ yearly_seasonality fitted = auto
    /\ weekly_seasonality fitted = auto
    /\ daily_seasonality fitted = auto
    /\ seasonalities fitted
       = (if 730 * ns_per_day <=? span h
          then [{| name := "yearly"; period := {| digits := 36525; scale := 2 |};
                   fourier_order := 10; mode := additive |}]
          else [])
         ++ (if (14 * ns_per_day <=? span h)
                && negb (at_least (min_dt h) (7 * ns_per_day))
             then [{| name := "weekly"; period := {| digits := 7; scale := 0 |};
                      fourier_order := 3; mode := additive |}]
             else [])
         ++ (if (2 * ns_per_day <=? span h)
                && negb (at_least (min_dt h) ns_per_day)
             then [{| name := "daily"; period := {| digits := 1; scale := 0 |};
                      fourier_order := 4; mode := additive |}]
             else [])
    /\ Forall (fun s => mode s = additive /\ name s <> "monthly")
              (seasonalities fitted)
    /\ changepoint_prior_scale fitted = {| digits := 5; scale := 2 |}
    /\ holidays fitted = Some (make_holidays_df [2021; 2022; 2023; 2024] "IN").
Proof.
  intros H.
  assert (Hfit : fit (Prophet_init (holidays_kwargs
                        (make_holidays_df [2021; 2022; 2023; 2024] "IN"))) data
                 = ret fitted).
  { destruct H as [H | H]; exact H. }
  destruct (fit_value _ _ _ Hfit) as [-> _].
  exists (sort_values (filter (fun p => negb (is_nan (snd p))) data)).
  generalize (sort_values (filter (fun p => negb (is_nan (snd p))) data)).
  intros h. unfold set_auto_seasonalities. cbn [history set_history].
  cbv zeta. rewrite !(Z.leb_antisym (span h)).
  destruct (span h <? 730 * ns_per_day);
    destruct (span h <? 14 * ns_per_day);
    destruct (span h <? 2 * ns_per_day);
    destruct (at_least (min_dt h) (7 * ns_per_day));
    destruct (at_least (min_dt h) ns_per_day);
    cbn; repeat split; try discriminate;
    repeat (constructor; [split; [reflexivity | discriminate] |]);
    constructor.
Qed.
End ForecastProperties.

(** ** The properties at sample inputs *)

Lemma empty_data_is_no_data_witness :
  raw_records (replying [("data", VRecords [])]) "HDFC.MF" = Some []
  /\ @fetch_mutual_fund_data iso_pandas (replying [("data", VRecords [])]) "HDFC.MF"
     = (None, Some NoDataError).
Proof.
  split; [reflexivity |].
  apply (@empty_data_is_no_data iso_pandas). reflexivity.
Defined.



(** The scenario of the normalizer: the row with the value ["bad"] is
    dropped and the single row left is not enough. *)
Example normalizer_scenario :
  @fetch_mutual_fund_data iso_pandas
    (replying [("data", VRecords bad_value_records)]) "HDFC.MF"
  = (None, Some InsufficientDataError)
  /\ valid_rows bad_value_records [Some (date 2023 1 1); Some (date 2023 1 2)]
       (@to_numeric_column iso_pandas (nav_column bad_value_records))
     = [(record (SStr "2023-01-01") (SNum (Int 100)), Some (date 2023 1 1), Int 100)].
Proof. split; vm_compute; reflexivity. Qed.

Lemma bad_value_records_columns :
  In "date" (columns_of bad_value_records)
  /\ In "nav" (columns_of bad_value_records)
  /\ ~ In "y" (columns_of bad_value_records).
Proof.
  change (columns_of bad_value_records) with ["date"; "nav"].
  split; [left; reflexivity |]. split; [right; left; reflexivity |].
  intros [H | [H | []]]; discriminate H.
Qed.

Lemma insufficient_data_iff_fewer_than_two_valid_witness :
  let w := replying [("data", VRecords bad_value_records)] in
  let ts := [Some (date 2023 1 1); Some (date 2023 1 2)] in
  raw_records w "HDFC.MF" = Some bad_value_records
  /\ bad_value_records <> []
  /\ In "date" (columns_of bad_value_records)
  /\ In "nav" (columns_of bad_value_records)
  /\ ~ In "y" (columns_of bad_value_records)
  /\ @to_datetime_column iso_pandas (clock w) (date_column bad_value_records) = ret ts
  /\ (@fetch_mutual_fund_data iso_pandas w "HDFC.MF"
      = (None, Some InsufficientDataError)
      <-> (List.length
             (valid_rows bad_value_records ts
                (@to_numeric_column iso_pandas (nav_column bad_value_records)))
           < 2)%nat).
Proof.
  intros w ts.
  destruct bad_value_records_columns as [Hdate [Hnav Hy]].
  split; [reflexivity |]. split; [discriminate |].
  split; [exact Hdate |]. split; [exact Hnav |]. split; [exact Hy |].
  split; [vm_compute; reflexivity |].
  apply (@insufficient_data_iff_fewer_than_two_valid iso_pandas w "HDFC.MF"
           bad_value_records ts).
  - reflexivity.
  - discriminate.
  - exact Hdate.
  - exact Hnav.
  - exact Hy.
  - vm_compute. reflexivity.
Defined.

(** C3, as stated, is refuted twice: the empty sequence leaves fewer than
    two valid rows and yields the no-data message; a single row whose
    timestamp is no date leaves fewer than two and yields the message of
    the failed conversion. *)
Lemma insufficient_data_not_for_every_sequence :
  (@fetch_mutual_fund_data iso_pandas (replying [("data", VRecords [])]) "HDFC.MF"
   = (None, Some NoDataError)
   /\ NoDataError <> InsufficientDataError)
  /\ (exists e,
        @to_datetime_column iso_pandas sample_clock (date_column one_bad_date_record)
        = raise e
        /\ @fetch_mutual_fund_data iso_pandas
             (replying [("data", VRecords one_bad_date_record)]) "HDFC.MF"
           = (None, Some (str_exn e))
        /\ str_exn e <> InsufficientDataError
        /\ (List.length (filter valid_value
                           (@to_numeric_column iso_pandas
                              (nav_column one_bad_date_record))) < 2)%nat)
  /\ ~ (forall (P : Pandas) (w : World) (fund_code : string)
               (recs : list RawRecord),
          raw_records w fund_code = Some recs ->
          (fetch_mutual_fund_data w fund_code = (None, Some InsufficientDataError)
           <-> (List.length (filter valid_value
                               (to_numeric_column (nav_column recs))) < 2)%nat)).
Proof.
  split; [split; [reflexivity | discriminate] |].
  split.
  - eexists. split; [vm_compute; reflexivity |].
    split; [vm_compute; reflexivity |].
    split; [vm_compute; discriminate | vm_compute; lia].
  - intros H.
    pose proof (H iso_pandas (replying [("data", VRecords [])])
                  "HDFC.MF" [] eq_refl) as [_ H0].
    assert (Hlt : (List.length (filter valid_value
                                  (@to_numeric_column iso_pandas (nav_column [])))
                   < 2)%nat)
      by (vm_compute; lia).
    specialize (H0 Hlt). vm_compute in H0. discriminate H0.
Qed.

Lemma all_numeric_text (s : string) (col : list Cell) :
  In (CScalar (SStr s)) col -> all_numeric col = None.
Proof.
  induction col as [| x col IH]; intros Hin; [destruct Hin |].
  simpl. destruct Hin as [-> | Hin].
  - reflexivity.
  - rewrite (IH Hin). destruct (numeric_or_null x); reflexivity.
Qed.

Lemma convert_from_fails (f : nat -> Cell -> Py (option Timestamp)) (x : Cell)
      (col : list Cell) (i : nat) :
  In x col -> (forall k, fails (f k x)) -> fails (convert_from f i col).
Proof.
  intros Hin Hx. revert i.
  induction col as [| y col IH]; intros i; [destruct Hin |].
  simpl. destruct (f i y) as [e | t] eqn:Hy.
  - exists e. reflexivity.
  - destruct Hin as [-> | Hin].
    + destruct (Hx i) as [e He]. unfold raise in *. congruence.
    + destruct (IH Hin (S i)) as [e He]. rewrite He. exists e. reflexivity.
Qed.

(** The text ["bad"] is rejected by the reference conversion wherever it
    stands. *)
Lemma bad_is_rejected : @rejected iso_pandas (SStr "bad").
Proof.
  intros c col Hin. cbn [to_datetime_column iso_pandas]. unfold iso_to_datetime.
  unfold stored. rewrite (all_numeric_text _ _ Hin).
  destruct (guessed_iso col).
  - apply (convert_from_fails _ _ _ _ Hin). intros k. eexists. reflexivity.
  - apply (convert_from_fails _ _ _ _ Hin). intros k. eexists. reflexivity.
Qed.

Lemma unparseable_timestamp_aborts_witness :
  let w := replying [("data", VRecords bad_date_records)] in
  let r := record (SStr "bad") (SNum (Int 101)) in
  raw_records w "HDFC.MF" = Some bad_date_records
  /\ In r bad_date_records
  /\ dict_get "date" r = Some (SStr "bad")
  /\ @rejected iso_pandas (SStr "bad")
  /\ exists e,
       @to_datetime_column iso_pandas (clock w) (date_column bad_date_records)
       = raise e
       /\ @normalize iso_pandas (clock w) (VRecords bad_date_records) = raise e
       /\ @fetch_mutual_fund_data iso_pandas w "HDFC.MF" = (None, Some (str_exn e)).
Proof.
  intros w r.
  split; [reflexivity |]. split; [right; left; reflexivity |].
  split; [reflexivity |]. split; [exact bad_is_rejected |].
  apply (@unparseable_timestamp_aborts iso_pandas w "HDFC.MF" bad_date_records
           r (SStr "bad")).
  - reflexivity.
  - right. left. reflexivity.
  - reflexivity.
  - exact bad_is_rejected.
Defined.

(** C7, as stated, is refuted: of three rows, two with a timestamp and a
    value that convert, the row with the timestamp ["bad"] is not dropped.
    Without it the function returns the two rows; with it the conversion of
    the column raises and the function returns no series and the text of
    that exception. *)
Lemma bad_timestamp_row_is_not_dropped :
  @fetch_mutual_fund_data iso_pandas
    (replying [("data", VRecords good_date_records)]) "HDFC.MF"
  = (Some {| columns := ["ds"; "y"];
             rows := [[CTime (date 2023 1 1); CScalar (SNum (Int 100))];
                      [CTime (date 2023 1 3); CScalar (SNum (Int 102))]] |}, None)
  /\ (exists e,
        @to_datetime_column iso_pandas sample_clock (date_column bad_date_records)
        = raise e
        /\ @fetch_mutual_fund_data iso_pandas
             (replying [("data", VRecords bad_date_records)]) "HDFC.MF"
           = (None, Some (str_exn e)))
  /\ ~ (exists df,
          @fetch_mutual_fund_data iso_pandas
            (replying [("data", VRecords bad_date_records)]) "HDFC.MF"
          = (Some df, None)).
Proof.
  split; [vm_compute; reflexivity |].
  split.
  - eexists. split; vm_compute; reflexivity.
  - intros [df H]. apply (f_equal (fun r => match fst r with
                                             | Some _ => true
                                             | None => false
                                             end)) in H.
    vm_compute in H. discriminate H.
Qed.

(** C10, against the code: when the caught exception has an empty text, as
    [MemoryError()] raised while the reply is decoded, the message returned
    is the empty string, so that neither a series nor a non-empty message is
    returned. *)
Lemma fetch_mutual_fund_data_empty_message :
  @fetch_mutual_fund_data iso_pandas undecodable "HDFC.MF" = (None, Some EmptyString)
  /\ ~ (forall (P : Pandas) (w : World) (fund_code : string),
          (exists df, fetch_mutual_fund_data w fund_code = (Some df, None)
                      /\ (2 <= len df)%nat /\ clean_values df)
          \/ (exists m, fetch_mutual_fund_data w fund_code = (None, Some m)
                        /\ m <> EmptyString)).
Proof.
  split; [reflexivity |].
  intros H. destruct (H iso_pandas undecodable "HDFC.MF") as [[df [Hdf _]] | [m [Hm Hne]]].
  - discriminate Hdf.
  - injection Hm as <-. apply Hne. reflexivity.
Qed.



(** The last future day of the sample: 2023-12-30 plus 90 days. *)
Example future_frame_sample :
  civil_from_days ((date 2023 12 30 + 90 * ns_per_day) / ns_per_day) = (2024, 3, 29).
Proof. reflexivity. Qed.

Lemma fitted_model_has_defaults_witness :
  exists fitted,
    (@stock_fit constant_engine long_history = ret fitted
     \/ @mutual_fund_fit constant_engine long_history = ret fitted)
    /\ exists h,
         history fitted = Some h
         /\ h = sort_values (filter (fun p => negb (is_nan (snd p))) long_history)
         /\ seasonality_mode fitted = additive
         /\ seasonality_mode fitted <> multiplicative
         /\ yearly_seasonality fitted = auto
         /\ weekly_seasonality fitted = auto
         /\ daily_seasonality fitted = auto
         /\ seasonalities fitted
            = (if 730 * ns_per_day <=? span h
               then [{| name := "yearly"; period := {| digits := 36525; scale := 2 |};
                        fourier_order := 10; mode := additive |}]
               else [])
              ++ (if (14 * ns_per_day <=? span h)
                     && negb (at_least (min_dt h) (7 * ns_per_day))
                  then [{| name := "weekly"; period := {| digits := 7; scale := 0 |};
                           fourier_order := 3; mode := additive |}]
                  else [])
              ++ (if (2 * ns_per_day <=? span h)
                     && negb (at_least (min_dt h) ns_per_day)
                  then [{| name := "daily"; period := {| digits := 1; scale := 0 |};
                           fourier_order := 4; mode := additive |}]
                  else [])
         /\ Forall (fun s => mode s = additive /\ name s <> "monthly")
                   (seasonalities fitted)
         /\ changepoint_prior_scale fitted = {| digits := 5; scale := 2 |}
         /\ holidays fitted = Some (make_holidays_df [2021; 2022; 2023; 2024] "IN").
Proof.
  eexists. split; [left; reflexivity |].
  apply (@fitted_model_has_defaults constant_engine long_history).
  left. reflexivity.
Defined.

(** The seasonal components of the fitted model on the two samples: yearly
    and weekly, both additive, on the long history; none on two days. *)
Example fitted_seasonalities_sample :
  (exists fitted,
     @stock_fit constant_engine long_history = ret fitted
     /\ map (fun s => (name s, mode s)) (seasonalities fitted)
        = [("yearly", additive); ("weekly", additive)])
  /\ (exists fitted,
        @stock_fit constant_engine two_day_history = ret fitted
        /\ seasonalities fitted = []).
Proof.
  split; eexists; (split; [vm_compute; reflexivity | vm_compute; reflexivity]).
Qed.

(** * Further properties *)

(** ** Replies the source does not expect *)

Section SourceEdges.
Context {P : Pandas}.

Lemma fetch_try_body (w : World) (fund_code : string) (data : list (string * Value)) :
  reply_body w fund_code = Some data ->
  fetch_try w fund_code
  = (d <- dict_getitem data "data" ;;
     if negb (truthy d) then ret (None, Some NoDataError)
     else normalize (clock w) d).
Proof.
  unfold reply_body, fetch_try.
  destruct (requests_get w (url_of fund_code)) as [e | response]; [discriminate |].
  simpl. destruct (json response) as [e | data']; [discriminate |].
  intros H. injection H as ->. reflexivity.
Qed.

(** X1. A reply whose body has no [data] member is answered with the text
    of the key error, the quoted member name, and no series. *)
Theorem missing_data_member (w : World) (fund_code : string)
        (data : list (string * Value)) :
  reply_body w fund_code = Some data ->
  dict_get "data" data = None ->
  fetch_mutual_fund_data w fund_code = (None, Some "'data'").
Proof.
  intros Hb Hd. unfold fetch_mutual_fund_data.
  rewrite (fetch_try_body _ _ _ Hb). unfold dict_getitem. rewrite Hd.
  reflexivity.
Qed.

(** X2. The guard of line 15 is a truth test: whatever falsy value the
    [data] member holds (null, false, zero, the empty text, the empty array)
    the function returns the no-data message. *)
Theorem falsy_data_is_no_data (w : World) (fund_code : string)
        (data : list (string * Value)) (d : Value) :
  reply_body w fund_code = Some data ->
  dict_get "data" data = Some d ->
  truthy d = false ->
  fetch_mutual_fund_data w fund_code = (None, Some NoDataError).
Proof.
  intros Hb Hd Ht. unfold fetch_mutual_fund_data.
  rewrite (fetch_try_body _ _ _ Hb). unfold dict_getitem. rewrite Hd.
  simpl. rewrite Ht. reflexivity.
Qed.

(** X3. A truthy scalar in the [data] member (a text, a number other than
    zero, true) passes the guard and is rejected by the frame constructor:
    the message returned is the constructor's. *)
Theorem scalar_data_is_rejected (w : World) (fund_code : string)
        (data : list (string * Value)) (s : Scalar) :
  reply_body w fund_code = Some data ->
  dict_get "data" data = Some (VScalar s) ->
  truthy (VScalar s) = true ->
  fetch_mutual_fund_data w fund_code
  = (None, Some "DataFrame constructor not properly called!").
Proof.
  intros Hb Hd Ht. unfold fetch_mutual_fund_data.
  rewrite (fetch_try_body _ _ _ Hb). unfold dict_getitem. rewrite Hd.
  rewrite bind_ret. rewrite Ht. reflexivity.
Qed.

(** X4. When no record of a non-empty sequence has a [date] member, the
    function returns the text of the key error for that column. *)
Theorem no_date_member (w : World) (fund_code : string) (recs : list RawRecord) :
  raw_records w fund_code = Some recs ->
  recs <> [] ->
  (forall r, In r recs -> ~ In "date" (map fst r)) ->
  fetch_mutual_fund_data w fund_code = (None, Some "'date'").
Proof.
  intros Hraw Hne Hno. unfold fetch_mutual_fund_data.
  rewrite (fetch_try_records _ _ _ Hraw).
  destruct recs as [| r0 recs0] eqn:Hrecs; [congruence |]. rewrite <- Hrecs in *.
  unfold normalize. simpl pd_DataFrame. rewrite bind_ret.
  unfold getitem, positions. simpl columns.
  rewrite positions_from_absent; [reflexivity |].
  intros Hin. destruct (columns_source _ _ Hin) as [r [Hr Hk]].
  exact (Hno r Hr Hk).
Qed.

(** X5. When the timestamp column converts but no record has a [nav]
    member, nor one named [y], the renaming of line 20 leaves the frame
    without a [y] column and the function returns the text of the key error
    for [y]. *)
Theorem no_value_member (w : World) (fund_code : string) (recs : list RawRecord)
        (r0 : RawRecord) (s0 : Scalar) (ts : list (option Timestamp)) :
  raw_records w fund_code = Some recs ->
  In r0 recs ->
  dict_get "date" r0 = Some s0 ->
  to_datetime_column (clock w) (date_column recs) = ret ts ->
  (forall r, In r recs -> ~ In "nav" (map fst r) /\ ~ In "y" (map fst r)) ->
  fetch_mutual_fund_data w fund_code = (None, Some "'y'").
Proof.
  intros Hraw Hin Hdate Hconv Hno. unfold fetch_mutual_fund_data.
  rewrite (fetch_try_records _ _ _ Hraw).
  destruct recs as [| r1 recs1] eqn:Hrecs; [destruct Hin |]. rewrite <- Hrecs in *.
  unfold normalize. simpl pd_DataFrame. rewrite bind_ret.
  rewrite (getitem_date_records recs r0 s0 Hin Hdate). rewrite bind_ret.
  unfold to_datetime. rewrite Hconv, !bind_ret.
  assert (Hcol : In "date" (columns_of recs)).
  { apply (columns_member recs r0); [exact Hin |].
    apply (dict_get_member _ _ _ Hdate). }
  destruct (positions_from_unique _ 0%nat _ (columns_NoDup recs) Hcol)
    as [j [Hp _]].
  rewrite (setitem_present (frame_of_records recs) "date" _ (0 + j) Hp).
  unfold getitem at 1. rewrite rename_columns. simpl columns.
  unfold positions. rewrite positions_from_absent; [reflexivity |].
  intros Hy. apply in_map_iff in Hy. destruct Hy as [c [Hc Hcin]].
  destruct (columns_source _ _ Hcin) as [r [Hr Hk]].
  destruct (Hno r Hr) as [Hnav Hyy].
  destruct (renamed_y _ Hc) as [-> | ->]; contradiction.
Qed.
End SourceEdges.

(** ** The frame a successful call returns *)

Section ReturnedFrame.
Context {P : Pandas}.

Lemma normalize_frame (c : Clock) (recs : list RawRecord) (df : DataFrame) :
  normalize c (VRecords recs) = ret (Some df, None) ->
  exists i j dates values,
    positions "date" (columns_of recs) = [i]
    /\ positions "y" (map renamed (columns_of recs)) = [j]
    /\ df = {| columns := map renamed (columns_of recs);
               rows := filter (fun r => negb (isna (nth j r missing)))
                         (set_column j values
                            (set_column i dates
                               (map (row_of (columns_of recs)) recs))) |}.
Proof.
  unfold normalize. simpl pd_DataFrame. rewrite bind_ret.
  destruct (getitem (frame_of_records recs) "date") as [e | [cells | ps]] eqn:Hd;
    try discriminate.
  - destruct (getitem_Series _ _ _ Hd) as [i [Hi _]]. rewrite bind_ret.
    unfold to_datetime.
    destruct (to_datetime_column c cells) as [e | ts]; [discriminate |].
    rewrite !bind_ret.
    rewrite (setitem_present (frame_of_records recs) "date" (map time_cell ts) i Hi).
    match goal with
    | |- context [rename ?f _] => set (df1 := f)
    end.
    destruct (getitem (rename df1 [("date", "ds"); ("nav", "y")]) "y")
      as [e | [ycells | ps]] eqn:Hy; try discriminate.
    destruct (getitem_Series _ _ _ Hy) as [j [Hj _]]. rewrite bind_ret.
    unfold to_numeric. rewrite bind_ret.
    rewrite (setitem_present _ "y" _ j Hj).
    match goal with
    | |- context [dropna ?d "y"] => rewrite (dropna_present d "y" j Hj)
    end.
    rewrite bind_ret.
    destruct (_ <? 2)%nat; intros H; [discriminate |].
    injection H as <-.
    exists i, j, (map time_cell ts), (map number_cell (to_numeric_column ycells)).
    split; [exact Hi |]. split; [exact Hj |]. reflexivity.
Qed.

Lemma fetch_success_records (w : World) (fund_code : string) (df : DataFrame) :
  fetch_mutual_fund_data w fund_code = (Some df, None) ->
  exists recs,
    raw_records w fund_code = Some recs
    /\ normalize (clock w) (VRecords recs) = ret (Some df, None).
Proof.
  unfold fetch_mutual_fund_data.
  destruct (fetch_try w fund_code) as [e | res] eqn:Htry; [discriminate |].
  intros ->. revert Htry.
  unfold fetch_try, raw_records, dict_getitem.
  destruct (requests_get w (url_of fund_code)) as [e | response]; [discriminate |].
  cbv beta iota delta [bind].
  destruct (json response) as [e | data]; [discriminate |].
  destruct (dict_get "data" data) as [[s | recs] |];
    cbv beta iota delta [ret raise]; try discriminate.
  - destruct (truthy (VScalar s)); cbv beta iota delta [negb]; discriminate.
  - destruct recs as [| r recs]; [discriminate |].
    cbv beta iota delta [truthy negb].
    intros Hn. exists (r :: recs). split; [reflexivity | exact Hn].
Qed.

(** X6. The frame a successful call returns is rectangular and never has
    more rows than records were received; its labels are those of the
    members of the records with [date] renamed to [ds] and [nav] to [y], so
    that it has a [ds] column and no column is named [date] or [nav]. *)
Theorem returned_frame_is_well_formed
        (w : World) (fund_code : string) (df : DataFrame) :
  fetch_mutual_fund_data w fund_code = (Some df, None) ->
  exists recs,
    raw_records w fund_code = Some recs
    /\ (len df <= List.length recs)%nat
    /\ columns df = map renamed (columns_of recs)
    /\ Forall (fun r => List.length r = List.length (columns df)) (rows df)
    /\ In "ds" (columns df)
    /\ ~ In "date" (columns df)
    /\ ~ In "nav" (columns df).
Proof.
  intros H. destruct (fetch_success_records _ _ _ H) as [recs [Hraw Hn]].
  destruct (normalize_frame _ _ _ Hn) as [i [j [dates [values [Hi [Hj ->]]]]]].
  exists recs. split; [exact Hraw |]. unfold len. simpl.
  split; [| split; [reflexivity | split; [| split; [| split]]]].
  - etransitivity; [apply filter_length_le |].
    rewrite !set_column_length, length_map. apply le_n.
  - apply Forall_forall. intros r Hr. apply filter_In in Hr.
    destruct Hr as [Hr _]. revert r Hr. apply Forall_forall.
    do 2 apply set_column_widths.
    apply Forall_forall. intros r Hr. apply in_map_iff in Hr.
    destruct Hr as [r' [<- _]]. unfold row_of. rewrite !length_map. reflexivity.
  - apply in_map_iff. exists "date". split; [reflexivity |].
    destruct (in_dec string_dec "date" (columns_of recs)) as [Hin | Hout];
      [exact Hin |].
    unfold positions in Hi. rewrite (positions_from_absent _ _ _ Hout) in Hi.
    discriminate Hi.
  - intros Hin. apply in_map_iff in Hin. destruct Hin as [c [Hc _]].
    exact (proj1 (renamed_not_source c) Hc).
  - intros Hin. apply in_map_iff in Hin. destruct Hin as [c [Hc _]].
    exact (proj2 (renamed_not_source c) Hc).
Qed.

Lemma clean_row_cells (recs : list RawRecord) (r : RawRecord)
      (t : option Timestamp) (v : Number) :
  In "date" (columns_of recs) ->
  In "nav" (columns_of recs) ->
  nth (position_of "date" (columns_of recs))
      (clean_row (columns_of recs) (r, t, v)) missing = time_cell t
  /\ nth (position_of "nav" (columns_of recs))
         (clean_row (columns_of recs) (r, t, v)) missing = number_cell v.
Proof.
  intros Hdate Hnav.
  destruct (positions_from_unique _ 0%nat _ (columns_NoDup recs) Hdate)
    as [i [Hi Hith]].
  destruct (positions_from_unique _ 0%nat _ (columns_NoDup recs) Hnav)
    as [j [Hj Hjth]].
  simpl in Hi, Hj. unfold clean_row, position_of, positions.
  rewrite Hi, Hj. cbn [hd].
  assert (Hij : i <> j) by (intros ->; congruence).
  assert (Hilt : (i < List.length (columns_of recs))%nat).
  { apply nth_error_Some. congruence. }
  assert (Hjlt : (j < List.length (columns_of recs))%nat).
  { apply nth_error_Some. congruence. }
  split.
  - rewrite nth_set_nth_other by congruence.
    apply nth_set_nth_same. unfold row_of. rewrite length_map. exact Hilt.
  - apply nth_set_nth_same. rewrite set_nth_length. unfold row_of.
    rewrite length_map. exact Hjlt.
Qed.

(** X7. A record whose timestamp converts to no date ([NaT], as for a null
    member) is not dropped: only the value column is cleaned, so with a
    valid value it is a row of the returned frame, its timestamp entry being
    [NaT]. *)
Theorem null_timestamp_row_is_kept
        (w : World) (fund_code : string) (recs : list RawRecord)
        (ts : list (option Timestamp)) (r : RawRecord) (v : Number) :
  raw_records w fund_code = Some recs ->
  In "date" (columns_of recs) ->
  In "nav" (columns_of recs) ->
  ~ In "y" (columns_of recs) ->
  to_datetime_column (clock w) (date_column recs) = ret ts ->
  (2 <= List.length (valid_rows recs ts (to_numeric_column (nav_column recs))))%nat ->
  In (r, None, v) (combine (combine recs ts) (to_numeric_column (nav_column recs))) ->
  valid_value v = true ->
  exists df row,
    fetch_mutual_fund_data w fund_code = (Some df, None)
    /\ In row (rows df)
    /\ row = clean_row (columns_of recs) (r, None, v)
    /\ nth (position_of "date" (columns_of recs)) row missing = CNaT
    /\ nth (position_of "nav" (columns_of recs)) row missing = CScalar (SNum v).
Proof.
  intros Hraw Hdate Hnav Hy Hconv Hlen Hin Hvalid.
  assert (Hne : recs <> []) by (intros ->; destruct Hin).
  unfold fetch_mutual_fund_data. rewrite (fetch_try_records _ _ _ Hraw).
  destruct recs as [| r1 recs1] eqn:Hrecs; [congruence |]. rewrite <- Hrecs in *.
  rewrite (normalize_records (clock w) recs ts Hdate Hnav Hy Hconv).
  apply Nat.ltb_ge in Hlen. rewrite Hlen.
  eexists. eexists. split; [reflexivity |]. cbn [rows].
  split; [| split; [reflexivity |]].
  - apply in_map_iff. exists (r, None, v). split; [reflexivity |].
    apply filter_In. split; [exact Hin | exact Hvalid].
  - exact (clean_row_cells recs r None v Hdate Hnav).
Qed.
End ReturnedFrame.

(** ** The year of a timestamp and the filter *)

Lemma civil_year_ge (c z : Z) :
  c <= fst (fst (civil_from_days z)) <-> days_from_civil c 1 1 <= z.
Proof.
  unfold civil_from_days, days_from_civil. cbv zeta.
  change (1 <=? 2) with true. change (2 <? 1) with false. cbv iota.
  set (z' := z + 719468).
  set (era := z' / 146097).
  set (doe := z' - era * 146097).
  set (yoe := (doe - doe / 1460 + doe / 36524 - doe / 146096) / 365).
  set (doy := doe - (365 * yoe + yoe / 4 - yoe / 100)).
  set (mp := (5 * doy + 2) / 153).
  simpl fst.
  assert (Hdoe : 0 <= doe < 146097)
    by (subst doe era; Z.div_mod_to_equations; lia).
  assert (Hyoe : 0 <= yoe <= 399) by (subst yoe; Z.div_mod_to_equations; lia).
  assert (Hdoy : 0 <= doy <= 365)
    by (subst doy yoe; Z.div_mod_to_equations; lia).
  assert (Hmpb : 0 <= mp <= 11) by (subst mp; Z.div_mod_to_equations; lia).
  destruct (mp <? 10) eqn:Hmp.
  - destruct (mp + 3 <=? 2) eqn:Hm; simpl fst.
    + lia.
    + subst mp doy yoe doe era z'. Z.div_mod_to_equations. lia.
  - destruct (mp - 9 <=? 2) eqn:Hm; simpl fst.
    + subst mp doy yoe doe era z'. Z.div_mod_to_equations. lia.
    + lia.
Qed.

(** A timestamp is of the year [c] or later exactly from the midnight that
    begins 1 January of [c]. *)
Lemma year_ge (c : Z) (t : Timestamp) : c <= year t <-> date c 1 1 <= t.
Proof.
  unfold year, date.
  pose proof (civil_year_ge c (t / ns_per_day)) as H.
  destruct (civil_from_days (t / ns_per_day)) as [[y m] d]. simpl in H.
  rewrite H. generalize (days_from_civil c 1 1). intros n.
  unfold ns_per_day. Z.div_mod_to_equations. lia.
Qed.

Lemma year_leb (c : Z) (t : Timestamp) : (c <=? year t) = (date c 1 1 <=? t).
Proof.
  destruct (Z.leb_spec c (year t)) as [H | H];
    destruct (Z.leb_spec (date c 1 1) t) as [H' | H']; try reflexivity.
  - apply year_ge in H. lia.
  - apply year_ge in H'. lia.
Qed.

Lemma filter_twice {A : Type} (p q : A -> bool) (l : list A) :
  filter q (filter p l) = filter (fun a => p a && q a) l.
Proof.
  induction l as [| a l IH]; simpl; [reflexivity |].
  destruct (p a); simpl; [destruct (q a); rewrite IH; reflexivity | exact IH].
Qed.

(** X8. The filter by year is a threshold on the timestamp: it returns
    exactly the rows from the midnight that begins 1 January of the cutoff
    year on, so that line 99 keeps the rows from 2024-01-01 00:00. *)
Theorem filter_from_year_is_a_threshold (cutoff : Z) (forecast : list ForecastRow) :
  filter_from_year cutoff forecast
  = ret (filter (fun r => date cutoff 1 1 <=? ds r) forecast)
  /\ forecast_filtered forecast
     = ret (filter (fun r => 1704067200000000000 <=? ds r) forecast).
Proof.
  split.
  - rewrite filter_from_year_filter. f_equal. apply filter_ext.
    intros r. apply year_leb.
  - unfold forecast_filtered. rewrite filter_from_year_filter. f_equal.
    apply filter_ext. intros r. rewrite year_leb. reflexivity.
Qed.

(** X9. Filters compose: filtering by one cutoff year and the result by
    another is filtering by the later of the two; in particular filtering
    twice by the same year changes nothing. *)
Theorem filter_from_year_composes (c1 c2 : Z) (forecast : list ForecastRow) :
  exists rows,
    filter_from_year c1 forecast = ret rows
    /\ filter_from_year c2 rows = filter_from_year (Z.max c1 c2) forecast
    /\ filter_from_year c1 rows = ret rows.
Proof.
  exists (filter (fun r => c1 <=? year (ds r)) forecast).
  split; [apply filter_from_year_filter |].
  rewrite !filter_from_year_filter, !filter_twice. split.
  - f_equal. apply filter_ext. intros r.
    destruct (Z.leb_spec c1 (year (ds r))), (Z.leb_spec c2 (year (ds r))),
      (Z.leb_spec (Z.max c1 c2) (year (ds r))); simpl; try reflexivity; lia.
  - f_equal. apply filter_ext. intros r.
    destruct (c1 <=? year (ds r)); reflexivity.
Qed.

(** ** The future frame and the forecast of any series *)

Lemma insert_date_In (t y : Timestamp) (l : list Timestamp) :
  In y (insert_date t l) <-> y = t \/ In y l.
Proof.
  induction l as [| x l IH]; simpl.
  - intuition.
  - destruct (Z.ltb_spec t x) as [Hlt | Hge]; simpl; [intuition |].
    destruct (Z.eqb_spec t x) as [-> | Hne]; simpl; [intuition |].
    rewrite IH. intuition.
Qed.

Lemma sort_unique_In (y : Timestamp) (l : list Timestamp) :
  In y (sort_unique l) <-> In y l.
Proof.
  unfold sort_unique. induction l as [| x l IH]; simpl; [reflexivity |].
  rewrite insert_date_In, IH. intuition.
Qed.





Lemma fold_max_spec (l : list Timestamp) (x : Timestamp) :
  (fold_left Z.max l x = x \/ In (fold_left Z.max l x) l)
  /\ x <= fold_left Z.max l x
  /\ (forall t, In t l -> t <= fold_left Z.max l x).
Proof.
  revert x. induction l as [| y l IH]; intros x; simpl.
  - split; [left; reflexivity |]. split; [lia | intros t []].
  - destruct (IH (Z.max x y)) as [Hm [Hle Hall]]. split; [| split].
    + destruct Hm as [Hm | Hm]; [| right; right; exact Hm].
      rewrite Hm. destruct (Z.max_spec x y) as [[_ ->] | [_ ->]];
        [right; left; reflexivity | left; reflexivity].
    + lia.
    + intros t [<- | Ht]; [lia | apply Hall; exact Ht].
Qed.

Lemma max_date_spec (l : list Timestamp) :
  l <> [] ->
  exists m, max_date l = Some m /\ In m l /\ (forall t, In t l -> t <= m).
Proof.
  destruct l as [| x l]; [congruence |]. intros _. simpl.
  destruct (fold_max_spec l x) as [Hm [Hle Hall]].
  eexists. split; [reflexivity |]. split.
  - destruct Hm as [-> | Hm]; [left; reflexivity | right; exact Hm].
  - intros t [<- | Ht]; [exact Hle | apply Hall; exact Ht].
Qed.



Lemma date_range_In (start freq t : Z) (n : nat) :
  0 < freq -> In t (date_range start n freq) ->
  start <= t <= start + Z.of_nat n * freq - freq.
Proof.
  intros Hf Ht. unfold date_range in Ht. apply in_map_iff in Ht.
  destruct Ht as [k [<- Hk]]. apply in_seq in Hk. nia.
Qed.

Section AnySeries.
Context {E : Engine}.

Lemma make_future_fitted (model fitted : Prophet) (data : History) :
  fit model data = ret fitted ->
  exists last_date,
    max_date (sort_unique (map fst data)) = Some last_date
    /\ In last_date (map fst data)
    /\ (forall t, In t (map fst data) -> t <= last_date)
    /\ make_future_dataframe fitted 90
       = ret (sort_unique (map fst data)
              ++ date_range (last_date + ns_per_day) 90 ns_per_day).
Proof.
  intros Hfit. destruct (fit_returns _ _ _ Hfit) as [l [-> Hlen]].
  assert (Hne : sort_unique (map fst data) <> []).
  { destruct data as [| p data]; [simpl in Hlen; lia |].
    intros Hnil. assert (Hin : In (fst p) (sort_unique (map fst (p :: data))))
      by (apply sort_unique_In; left; reflexivity).
    rewrite Hnil in Hin. destruct Hin. }
  destruct (max_date_spec _ Hne) as [m [Hm [Hin Hall]]].
  exists m. split; [exact Hm |].
  split; [apply sort_unique_In; exact Hin |].
  split; [intros t Ht; apply Hall; apply sort_unique_In; exact Ht |].
  unfold make_future_dataframe. simpl history. simpl history_dates.
  rewrite Hm. rewrite (future_dates _ _ 90) by (unfold ns_per_day; lia).
  rewrite date_range_shift. reflexivity.
Qed.

Lemma stock_model_value : stock_model = ret model_for_fit.
Proof. reflexivity. Qed.

Lemma mutual_fund_model_value : mutual_fund_model = ret model_for_fit.
Proof. reflexivity. Qed.


Lemma predict_ds (m : Prophet) (future : list Timestamp) :
  map ds (predict m future) = future.
Proof.
  unfold predict. rewrite map_map. rewrite <- (map_id future) at 2.
  apply map_ext. intros t. destruct (predict_values m t) as [[a b] c].
  reflexivity.
Qed.

Lemma filter_predict (p : Timestamp -> bool) (m : Prophet) (future : list Timestamp) :
  map ds (filter (fun r => p (ds r)) (predict m future)) = filter p future.
Proof.
  unfold predict. rewrite filter_map_commute, map_map.
  rewrite <- (map_id (filter p future)).
  erewrite filter_ext; [apply map_ext |].
  - intros t. destruct (predict_values m t) as [[a b] c]. reflexivity.
  - intros t. cbv beta. destruct (predict_values m t) as [[a b] c]. reflexivity.
Qed.

Lemma forecast_and_present_fitted
      (model fitted : Prophet) (title : string) (data : History)
      (future : list Timestamp) :
  fit model data = ret fitted ->
  make_future_dataframe fitted 90 = ret future ->
  forecast_and_present (ret model) title data
  = ret {| caption := title;
           table := map four_columns
                      (filter (fun r => 2024 <=? year (ds r)) (predict fitted future));
           plotted := filter (fun r => 2024 <=? year (ds r)) (predict fitted future) |}.
Proof.
  intros Hfit Hfuture. unfold forecast_and_present.
  rewrite (fit_and_predict_fitted _ _ _ _ Hfit Hfuture), bind_ret. cbn [snd].
  unfold present, forecast_filtered. rewrite filter_from_year_filter.
  reflexivity.
Qed.


Lemma filter_none {A : Type} (p : A -> bool) (l : list A) :
  (forall a, In a l -> p a = false) -> filter p l = [].
Proof.
  induction l as [| a l IH]; intros H; simpl; [reflexivity |].
  rewrite (H a (or_introl eq_refl)). apply IH.
  intros b Hb. apply H. right. exact Hb.
Qed.

(** X12. For a history that lies wholly before 2024, as the fixed date
    range of the mutual-fund request makes it, no historical row reaches
    the page: every row shown is a forecast day after the latest historical
    day. *)
Theorem history_before_2024_is_not_shown
        (fitted : Prophet) (fund_code : string) (data : History) :
  fit model_for_fit data = ret fitted ->
  (forall p, In p data -> fst p < date 2024 1 1) ->
  exists last_date d,
    In last_date (map fst data)
    /\ mutual_fund_forecast fund_code data = ret d
    /\ map ds (plotted d)
       = filter (fun t => date 2024 1 1 <=? t)
                (date_range (last_date + ns_per_day) 90 ns_per_day)
    /\ Forall (fun r => last_date < ds r) (plotted d).
Proof.
  intros Hfit Hold.
  destruct (make_future_fitted _ _ _ Hfit) as [m [Hm [Hin [Hall Hfuture]]]].
  assert (Hds : map ds (filter (fun r => 2024 <=? year (ds r))
                          (predict fitted
                             (sort_unique (map fst data)
                              ++ date_range (m + ns_per_day) 90 ns_per_day)))
                = filter (fun t => date 2024 1 1 <=? t)
                         (date_range (m + ns_per_day) 90 ns_per_day)).
  { rewrite (filter_predict (fun t => 2024 <=? year t)).
    rewrite filter_app. rewrite (filter_none _ (sort_unique (map fst data))).
    - rewrite app_nil_l. apply filter_ext. intros t. apply year_leb.
    - intros t Ht. rewrite sort_unique_In in Ht. apply in_map_iff in Ht.
      destruct Ht as [p [<- Hp]]. specialize (Hold p Hp).
      rewrite year_leb. apply Z.leb_gt. exact Hold. }
  exists m. eexists. split; [exact Hin |].
  unfold mutual_fund_forecast. rewrite mutual_fund_model_value.
  rewrite (forecast_and_present_fitted _ _ _ _ _ Hfit Hfuture).
  split; [reflexivity |]. cbn [plotted]. split; [exact Hds |].
  apply Forall_forall. intros r Hr.
  assert (Hin' : In (ds r) (filter (fun t => date 2024 1 1 <=? t)
                             (date_range (m + ns_per_day) 90 ns_per_day))).
  { rewrite <- Hds. apply in_map. exact Hr. }
  apply filter_In in Hin'. destruct Hin' as [Hin' _].
  apply date_range_In in Hin'; [| unfold ns_per_day; lia].
  unfold ns_per_day in *. lia.
Qed.

(** X13. When even the 90th day after every historical timestamp lies
    before 2024, the forecast is computed and the page is given an empty
    table and an empty frame to plot: nothing is raised. *)
Theorem old_history_gives_empty_table
        (fitted : Prophet) (name : string) (data : History) :
  fit model_for_fit data = ret fitted ->
  (forall p, In p data -> fst p + 90 * ns_per_day < date 2024 1 1) ->
  exists d_stock d_fund,
    stock_forecast name data = ret d_stock
    /\ mutual_fund_forecast name data = ret d_fund
    /\ table d_stock = [] /\ plotted d_stock = []
    /\ table d_fund = [] /\ plotted d_fund = [].
Proof.
  intros Hfit Hold.
  destruct (make_future_fitted _ _ _ Hfit) as [m [Hm [Hin [Hall Hfuture]]]].
  assert (Hnone : filter (fun r => 2024 <=? year (ds r))
                    (predict fitted
                       (sort_unique (map fst data)
                        ++ date_range (m + ns_per_day) 90 ns_per_day)) = []).
  { apply filter_none. intros r Hr.
    assert (Hin' : In (ds r) (sort_unique (map fst data)
                              ++ date_range (m + ns_per_day) 90 ns_per_day)).
    { rewrite <- (predict_ds fitted). apply in_map. exact Hr. }
    rewrite year_leb. apply Z.leb_gt.
    apply in_map_iff in Hin. destruct Hin as [pm [Hpm Hinm]].
    pose proof (Hold pm Hinm) as Hm90. rewrite Hpm in Hm90.
    apply in_app_or in Hin'. destruct Hin' as [Hh | Hf].
    - rewrite sort_unique_In in Hh. specialize (Hall _ Hh).
      unfold ns_per_day in *. lia.
    - apply date_range_In in Hf; [| unfold ns_per_day; lia].
      unfold ns_per_day in *. lia. }
  eexists. eexists.
  unfold stock_forecast, mutual_fund_forecast.
  rewrite stock_model_value, mutual_fund_model_value.
  rewrite !(forecast_and_present_fitted _ _ _ _ _ Hfit Hfuture).
  split; [reflexivity |]. split; [reflexivity |]. cbn [plotted table].
  rewrite Hnone. repeat split.
Qed.
End AnySeries.

(** ** The two branches of the Predict page *)

Lemma iloc_last_member {A : Type} (l : list A) :
  l <> [] -> exists x, iloc_last l = ret x /\ In x l.
Proof.
  induction l as [| a l IH]; [congruence |]. intros _.
  destruct l as [| b l].
  - exists a. split; [reflexivity | left; reflexivity].
  - destruct IH as [x [Hx Hin]]; [discriminate |].
    exists x. split; [exact Hx | right; exact Hin].
Qed.

Section PageProperties.
Context {P : Pandas} {E : Engine} {R : Runtime}.

(** X14. When the call returns a message that is not empty, the branch
    shows one error and nothing else: the message between the prefix and
    the invitation to retry. *)
Theorem mutual_fund_error_is_shown (w : World) (fund_code m : string) :
  fetch_mutual_fund_data w fund_code = (None, Some m) ->
  m <> EmptyString ->
  run (mutual_fund_branch w fund_code)
  = [st_error ("Error: " ++ m ++ mutual_fund_retry)%string].
Proof.
  intros H Hm. unfold run, mutual_fund_branch, try_except. rewrite H.
  destruct m as [| c m]; [congruence |]. reflexivity.
Qed.

(** X15. When the call returns the empty message, the test of line 119
    takes it for a success: the branch subscripts the absent frame and what
    the user reads is the type error of that subscript, not the failure of
    the request. *)
Theorem empty_message_is_taken_for_success (w : World) (fund_code : string) :
  fetch_mutual_fund_data w fund_code = (None, Some EmptyString) ->
  run (mutual_fund_branch w fund_code)
  = [st_error ("Error: 'NoneType' object is not subscriptable"
               ++ mutual_fund_retry)%string].
Proof.
  intros H. unfold run, mutual_fund_branch, try_except. rewrite H. reflexivity.
Qed.

(** X16. On a frame the call returns, the live price of line 123 is always
    there: the subscript and [iloc[-1]] raise nothing and give a number
    other than [NaN]. *)
Theorem live_price_is_a_number (w : World) (fund_code : string) (df : DataFrame) :
  fetch_mutual_fund_data w fund_code = (Some df, None) ->
  exists x, last_y df = ret (CScalar (SNum x)) /\ is_nan x = false.
Proof.
  intros H. destruct (fetch_success_records _ _ _ H) as [recs [_ Hn]].
  destruct (normalize_returns _ _ _ _ Hn) as [[Hd _] | [df' [Hd [_ [Hlen Hclean]]]]];
    [discriminate |].
  injection Hd as <-. destruct Hclean as [i [Hi Hall]].
  unfold last_y, getitem. rewrite Hi. rewrite bind_ret.
  assert (Hne : column_at i df <> []).
  { unfold column_at, len in *. destruct (rows df); [simpl in Hlen; lia |].
    discriminate. }
  destruct (iloc_last_member _ Hne) as [c [Hc Hin]].
  unfold column_at in Hin. apply in_map_iff in Hin.
  destruct Hin as [r [<- Hr]]. rewrite Forall_forall in Hall.
  destruct (Hall r Hr) as [x [Hx Hnan]].
  exists x. rewrite Hc, Hx. split; [reflexivity | exact Hnan].
Qed.

Lemma forecast_and_present_display
      (model : Py Prophet) (title : string) (data : History) (d : Display) :
  forecast_and_present model title data = ret d ->
  caption d = title
  /\ table d = map four_columns (plotted d)
  /\ Forall (fun r => 2024 <= year (ds r)) (plotted d).
Proof.
  unfold forecast_and_present, fit_and_predict.
  destruct model as [e | m]; [discriminate |]. rewrite bind_ret.
  destruct (fit m data) as [e | fitted]; [discriminate |]. rewrite bind_ret.
  destruct (make_future_dataframe fitted 90) as [e | future]; [discriminate |].
  rewrite !bind_ret. cbn [snd]. unfold present, forecast_filtered.
  rewrite filter_from_year_filter, bind_ret.
  intros H. injection H as <-. cbn [caption table plotted].
  split; [reflexivity |]. split; [reflexivity |].
  apply Forall_forall. intros r Hr. apply filter_In in Hr.
  apply Z.leb_le. exact (proj2 Hr).
Qed.

(** X17. With the calls that draw on the page and [predict] taken to return
    (this development gives them no failure), and whatever the provider,
    the conversions, the source of the history, the format of the price and
    [fit] do, a branch leaves one of three pages: a single error; the live
    price and an error; or the live price, the caption, the table and the
    plot, the table being the four columns of the plotted rows, all of 2024
    or later.  So a failure of any of the calls that can fail here is shown
    as one error, after the price at most, and never beside a table. *)
Theorem branch_pages (w : World) (fund_code ticker : string) :
  page_shape mutual_fund_retry (run (mutual_fund_branch w fund_code))
  /\ page_shape stock_retry (run (stock_branch ticker)).
Proof.
  split.
  - unfold run, mutual_fund_branch, try_except.
    destruct (fetch_mutual_fund_data w fund_code) as [mf_data error].
    destruct error as [[| c m] |].
    + destruct mf_data as [df |]; [| left; eexists; reflexivity].
      unfold ui_bind, lift, show. cbn [fst snd app].
      destruct (last_y df) as [e | c]; [left; eexists; reflexivity |].
      destruct (format_2f c) as [e | p]; [left; eexists; reflexivity |].
      destruct (read_history df) as [e | data];
        [right; left; eexists; eexists; reflexivity |].
      destruct (mutual_fund_forecast fund_code data) as [e | d] eqn:Hd;
        [right; left; eexists; eexists; reflexivity |].
      right. right. eexists. exists d. split; [reflexivity |].
      exact (proj2 (forecast_and_present_display _ _ _ _ Hd)).
    + left. eexists. reflexivity.
    + destruct mf_data as [df |]; [| left; eexists; reflexivity].
      unfold ui_bind, lift, show. cbn [fst snd app].
      destruct (last_y df) as [e | c]; [left; eexists; reflexivity |].
      destruct (format_2f c) as [e | p]; [left; eexists; reflexivity |].
      destruct (read_history df) as [e | data];
        [right; left; eexists; eexists; reflexivity |].
      destruct (mutual_fund_forecast fund_code data) as [e | d] eqn:Hd;
        [right; left; eexists; eexists; reflexivity |].
      right. right. eexists. exists d. split; [reflexivity |].
      exact (proj2 (forecast_and_present_display _ _ _ _ Hd)).
  - unfold run, stock_branch, try_except, ui_bind, lift, show. cbn [fst snd app].
    destruct (yf_history ticker) as [e | data]; [left; eexists; reflexivity |].
    destruct (iloc_last (map snd data)) as [e | x]; [left; eexists; reflexivity |].
    destruct (format_2f (CScalar (SNum x))) as [e | p];
      [left; eexists; reflexivity |].
    destruct (stock_forecast ticker data) as [e | d] eqn:Hd;
      [right; left; eexists; eexists; reflexivity |].
    right. right. eexists. exists d. split; [reflexivity |].
    exact (proj2 (forecast_and_present_display _ _ _ _ Hd)).
Qed.

(** X18. A ticker whose history comes back empty is answered with the
    index error of [iloc[-1]] on line 73: the branch shows that error alone,
    no price and no forecast. *)
Theorem empty_history_is_an_index_error (ticker : string) :
  yf_history ticker = ret [] ->
  run (stock_branch ticker)
  = [st_error ("Error: single positional indexer is out-of-bounds"
               ++ stock_retry)%string].
Proof.
  intros H. unfold run, stock_branch, try_except, ui_bind, lift. rewrite H.
  reflexivity.
Qed.


(** X20. A history with rows of which fewer than two have a value shows its
    live price and then the error of [fit]: the price stays on the page
    above the error. *)
Theorem short_history_shows_price_then_error
        (ticker price : string) (data : History) (x : Number) :
  yf_history ticker = ret data ->
  iloc_last (map snd data) = ret x ->
  format_2f (CScalar (SNum x)) = ret price ->
  (List.length (filter (fun p => negb (is_nan (snd p))) data) < 2)%nat ->
  run (stock_branch ticker)
  = [st_write ("**Live Stock Price for " ++ ticker ++ ":** "
               ++ price ++ " INR")%string;
     st_error ("Error: Dataframe has less than 2 non-NaN rows."
               ++ stock_retry)%string].
Proof.
  intros Hh Hx Hp Hlen.
  unfold run, stock_branch, try_except, ui_bind, lift, show.
  rewrite Hh. cbv beta iota delta [ret]. rewrite Hx. cbv beta iota delta [ret].
  rewrite Hp. cbv beta iota delta [ret].
  unfold stock_forecast. rewrite stock_model_value.
  unfold forecast_and_present, fit_and_predict. rewrite bind_ret.
  unfold fit. cbn [history model_for_fit Prophet_init].
  apply Nat.ltb_lt in Hlen. rewrite Hlen. reflexivity.
Qed.
End PageProperties.

(** ** The further properties at sample inputs *)

Lemma missing_data_member_witness :
  let w := replying [("status", VScalar (SStr "error"))] in
  reply_body w "HDFC.MF" = Some [("status", VScalar (SStr "error"))]
  /\ dict_get "data" [("status", VScalar (SStr "error"))] = None
  /\ @fetch_mutual_fund_data iso_pandas w "HDFC.MF" = (None, Some "'data'").
Proof.
  intros w. split; [reflexivity |]. split; [reflexivity |].
  apply (@missing_data_member iso_pandas w "HDFC.MF"
           [("status", VScalar (SStr "error"))]); reflexivity.
Defined.

Lemma falsy_data_is_no_data_witness :
  let w := replying [("data", VScalar SNull)] in
  reply_body w "HDFC.MF" = Some [("data", VScalar SNull)]
  /\ dict_get "data" [("data", VScalar SNull)] = Some (VScalar SNull)
  /\ truthy (VScalar SNull) = false
  /\ @fetch_mutual_fund_data iso_pandas w "HDFC.MF" = (None, Some NoDataError).
Proof.
  intros w. split; [reflexivity |]. split; [reflexivity |]. split; [reflexivity |].
  apply (@falsy_data_is_no_data iso_pandas w "HDFC.MF"
           [("data", VScalar SNull)] (VScalar SNull)); reflexivity.
Defined.

Lemma scalar_data_is_rejected_witness :
  let body := [("data", VScalar (SStr "Invalid scheme code"))] in
  reply_body (replying body) "HDFC.MF" = Some body
  /\ dict_get "data" body = Some (VScalar (SStr "Invalid scheme code"))
  /\ truthy (VScalar (SStr "Invalid scheme code")) = true
  /\ @fetch_mutual_fund_data iso_pandas (replying body) "HDFC.MF"
     = (None, Some "DataFrame constructor not properly called!").
Proof.
  intros body. split; [reflexivity |]. split; [reflexivity |].
  split; [reflexivity |].
  apply (@scalar_data_is_rejected iso_pandas (replying body) "HDFC.MF" body
           (SStr "Invalid scheme code")); reflexivity.
Defined.

Lemma no_date_member_witness :
  let recs := [[("nav", SNum (Int 100))]; [("nav", SNum (Int 101))]] in
  let w := replying [("data", VRecords recs)] in
  raw_records w "HDFC.MF" = Some recs
  /\ recs <> []
  /\ (forall r, In r recs -> ~ In "date" (map fst r))
  /\ @fetch_mutual_fund_data iso_pandas w "HDFC.MF" = (None, Some "'date'").
Proof.
  intros recs w.
  assert (Hno : forall r, In r recs -> ~ In "date" (map fst r)).
  { intros r [<- | [<- | []]]; intros [H | []]; discriminate H. }
  split; [reflexivity |]. split; [discriminate |]. split; [exact Hno |].
  apply (@no_date_member iso_pandas w "HDFC.MF" recs);
    [reflexivity | discriminate | exact Hno].
Defined.

Lemma no_value_member_witness :
  let r0 : RawRecord := [("date", SStr "2023-01-01"); ("price", SNum (Int 100))] in
  let recs := [r0; [("date", SStr "2023-01-02"); ("price", SNum (Int 101))]] in
  let w := replying [("data", VRecords recs)] in
  let ts := [Some (date 2023 1 1); Some (date 2023 1 2)] in
  raw_records w "HDFC.MF" = Some recs
  /\ In r0 recs
  /\ dict_get "date" r0 = Some (SStr "2023-01-01")
  /\ @to_datetime_column iso_pandas (clock w) (date_column recs) = ret ts
  /\ (forall r, In r recs -> ~ In "nav" (map fst r) /\ ~ In "y" (map fst r))
  /\ @fetch_mutual_fund_data iso_pandas w "HDFC.MF" = (None, Some "'y'").
Proof.
  intros r0 recs w ts.
  assert (Hno : forall r, In r recs ->
                          ~ In "nav" (map fst r) /\ ~ In "y" (map fst r)).
  { intros r [<- | [<- | []]]; split; intros [H | [H | []]]; discriminate H. }
  split; [reflexivity |]. split; [left; reflexivity |]. split; [reflexivity |].
  split; [vm_compute; reflexivity |]. split; [exact Hno |].
  apply (@no_value_member iso_pandas w "HDFC.MF" recs r0 (SStr "2023-01-01") ts);
    [reflexivity | left; reflexivity | reflexivity | vm_compute; reflexivity
     | exact Hno].
Defined.

Lemma null_date_records_fetched :
  exists df,
    @fetch_mutual_fund_data iso_pandas
      (replying [("data", VRecords null_date_records)]) "HDFC.MF" = (Some df, None).
Proof. eexists. vm_compute. reflexivity. Defined.

Lemma returned_frame_is_well_formed_witness :
  exists df,
    @fetch_mutual_fund_data iso_pandas
      (replying [("data", VRecords null_date_records)]) "HDFC.MF" = (Some df, None)
    /\ exists recs,
         raw_records (replying [("data", VRecords null_date_records)]) "HDFC.MF"
         = Some recs
         /\ (len df <= List.length recs)%nat
         /\ columns df = map renamed (columns_of recs)
         /\ Forall (fun r => List.length r = List.length (columns df)) (rows df)
         /\ In "ds" (columns df)
         /\ ~ In "date" (columns df)
         /\ ~ In "nav" (columns df).
Proof.
  destruct null_date_records_fetched as [df Hdf].
  exists df. split; [exact Hdf |].
  exact (@returned_frame_is_well_formed iso_pandas _ _ df Hdf).
Defined.

Lemma null_date_records_columns :
  In "date" (columns_of null_date_records)
  /\ In "nav" (columns_of null_date_records)
  /\ ~ In "y" (columns_of null_date_records).
Proof.
  change (columns_of null_date_records) with ["date"; "nav"].
  split; [left; reflexivity |]. split; [right; left; reflexivity |].
  intros [H | [H | []]]; discriminate H.
Qed.

Lemma null_timestamp_row_is_kept_witness :
  let w := replying [("data", VRecords null_date_records)] in
  let r := record SNull (SNum (Int 101)) in
  let ts := [Some (date 2023 1 1); None; Some (date 2023 1 3)] in
  raw_records w "HDFC.MF" = Some null_date_records
  /\ In "date" (columns_of null_date_records)
  /\ In "nav" (columns_of null_date_records)
  /\ ~ In "y" (columns_of null_date_records)
  /\ @to_datetime_column iso_pandas (clock w) (date_column null_date_records) = ret ts
  /\ (2 <= List.length
             (valid_rows null_date_records ts
                (@to_numeric_column iso_pandas (nav_column null_date_records))))%nat
  /\ In (r, None, Int 101)
        (combine (combine null_date_records ts)
                 (@to_numeric_column iso_pandas (nav_column null_date_records)))
  /\ valid_value (Int 101) = true
  /\ exists df row,
       @fetch_mutual_fund_data iso_pandas w "HDFC.MF" = (Some df, None)
       /\ In row (rows df)
       /\ row = clean_row (columns_of null_date_records) (r, None, Int 101)
       /\ nth (position_of "date" (columns_of null_date_records)) row missing = CNaT
       /\ nth (position_of "nav" (columns_of null_date_records)) row missing
          = CScalar (SNum (Int 101)).
Proof.
  intros w r ts.
  destruct null_date_records_columns as [Hdate [Hnav Hy]].
  assert (Hlen : (2 <= List.length
                         (valid_rows null_date_records ts
                            (@to_numeric_column iso_pandas
                               (nav_column null_date_records))))%nat).
  { vm_compute. repeat constructor. }
  assert (Hin : In (r, None, Int 101)
                   (combine (combine null_date_records ts)
                      (@to_numeric_column iso_pandas
                         (nav_column null_date_records)))).
  { right. left. reflexivity. }
  split; [reflexivity |]. split; [exact Hdate |]. split; [exact Hnav |].
  split; [exact Hy |]. split; [vm_compute; reflexivity |].
  split; [exact Hlen |]. split; [exact Hin |]. split; [reflexivity |].
  apply (@null_timestamp_row_is_kept iso_pandas w "HDFC.MF" null_date_records
           ts r (Int 101)).
  - reflexivity.
  - exact Hdate.
  - exact Hnav.
  - exact Hy.
  - vm_compute. reflexivity.
  - exact Hlen.
  - exact Hin.
  - reflexivity.
Defined.



Lemma two_day_history_fitted :
  exists fitted, @fit constant_engine model_for_fit two_day_history = ret fitted.
Proof. eexists. vm_compute. reflexivity. Defined.


Lemma two_day_history_before_2024 :
  forall p, In p two_day_history -> fst p < date 2024 1 1.
Proof. intros p [<- | [<- | []]]; vm_compute; reflexivity. Defined.

Lemma history_before_2024_is_not_shown_witness :
  exists fitted,
    @fit constant_engine model_for_fit two_day_history = ret fitted
    /\ (forall p, In p two_day_history -> fst p < date 2024 1 1)
    /\ exists last_date d,
         In last_date (map fst two_day_history)
         /\ @mutual_fund_forecast constant_engine "HDFC.MF" two_day_history = ret d
         /\ map ds (plotted d)
            = filter (fun t => date 2024 1 1 <=? t)
                     (date_range (last_date + ns_per_day) 90 ns_per_day)
         /\ Forall (fun r => last_date < ds r) (plotted d).
Proof.
  destruct two_day_history_fitted as [fitted Hfit].
  exists fitted. split; [exact Hfit |].
  split; [exact two_day_history_before_2024 |].
  exact (@history_before_2024_is_not_shown constant_engine fitted "HDFC.MF"
           two_day_history Hfit two_day_history_before_2024).
Defined.

Lemma old_history_fitted :
  exists fitted, @fit constant_engine model_for_fit old_history = ret fitted.
Proof. eexists. vm_compute. reflexivity. Defined.

Lemma old_history_is_old :
  forall p, In p old_history -> fst p + 90 * ns_per_day < date 2024 1 1.
Proof. intros p [<- | [<- | []]]; vm_compute; reflexivity. Defined.

Lemma old_history_gives_empty_table_witness :
  exists fitted,
    @fit constant_engine model_for_fit old_history = ret fitted
    /\ (forall p, In p old_history -> fst p + 90 * ns_per_day < date 2024 1 1)
    /\ exists d_stock d_fund,
         @stock_forecast constant_engine "TCS.NS" old_history = ret d_stock
         /\ @mutual_fund_forecast constant_engine "TCS.NS" old_history = ret d_fund
         /\ table d_stock = [] /\ plotted d_stock = []
         /\ table d_fund = [] /\ plotted d_fund = [].
Proof.
  destruct old_history_fitted as [fitted Hfit].
  exists fitted. split; [exact Hfit |]. split; [exact old_history_is_old |].
  exact (@old_history_gives_empty_table constant_engine fitted "TCS.NS"
           old_history Hfit old_history_is_old).
Defined.

Lemma mutual_fund_error_is_shown_witness :
  let w := replying [("data", VRecords [])] in
  @fetch_mutual_fund_data iso_pandas w "HDFC.MF" = (None, Some NoDataError)
  /\ NoDataError <> EmptyString
  /\ @run (@mutual_fund_branch iso_pandas constant_engine sample_runtime w "HDFC.MF")
     = [st_error ("Error: " ++ NoDataError ++ mutual_fund_retry)%string].
Proof.
  intros w. split; [reflexivity |]. split; [discriminate |].
  apply (@mutual_fund_error_is_shown iso_pandas constant_engine sample_runtime
           w "HDFC.MF" NoDataError); [reflexivity | discriminate].
Defined.

Lemma empty_message_is_taken_for_success_witness :
  @fetch_mutual_fund_data iso_pandas undecodable "HDFC.MF" = (None, Some EmptyString)
  /\ @run (@mutual_fund_branch iso_pandas constant_engine sample_runtime
             undecodable "HDFC.MF")
     = [st_error ("Error: 'NoneType' object is not subscriptable"
                  ++ mutual_fund_retry)%string].
Proof.
  split; [reflexivity |].
  apply (@empty_message_is_taken_for_success iso_pandas constant_engine
           sample_runtime undecodable "HDFC.MF"). reflexivity.
Defined.

Lemma live_price_is_a_number_witness :
  exists df,
    @fetch_mutual_fund_data iso_pandas
      (replying [("data", VRecords null_date_records)]) "HDFC.MF" = (Some df, None)
    /\ exists x, last_y df = ret (CScalar (SNum x)) /\ is_nan x = false.
Proof.
  destruct null_date_records_fetched as [df Hdf].
  exists df. split; [exact Hdf |].
  exact (@live_price_is_a_number iso_pandas _ _ df Hdf).
Defined.

Lemma empty_history_is_an_index_error_witness :
  @yf_history no_history_runtime "XXXX.NS" = ret []
  /\ @run (@stock_branch constant_engine no_history_runtime "XXXX.NS")
     = [st_error ("Error: single positional indexer is out-of-bounds"
                  ++ stock_retry)%string].
Proof.
  split; [reflexivity |].
  apply (@empty_history_is_an_index_error constant_engine no_history_runtime
           "XXXX.NS"). reflexivity.
Defined.


Lemma short_history_shows_price_then_error_witness :
  @yf_history one_day_runtime "NEW.NS" = ret [(date 2023 12 29, Int 100)]
  /\ iloc_last (map snd [(date 2023 12 29, Int 100)]) = ret (Int 100)
  /\ @format_2f one_day_runtime (CScalar (SNum (Int 100))) = ret "100.00"
  /\ (List.length (filter (fun p => negb (is_nan (snd p)))
                          [(date 2023 12 29, Int 100)]) < 2)%nat
  /\ @run (@stock_branch constant_engine one_day_runtime "NEW.NS")
     = [st_write ("**Live Stock Price for " ++ "NEW.NS" ++ ":** "
                  ++ "100.00" ++ " INR")%string;
        st_error ("Error: Dataframe has less than 2 non-NaN rows."
                  ++ stock_retry)%string].
Proof.
  split; [reflexivity |]. split; [reflexivity |].
  split; [vm_compute; reflexivity |]. split; [simpl; lia |].
  apply (@short_history_shows_price_then_error constant_engine one_day_runtime
           "NEW.NS" "100.00" [(date 2023 12 29, Int 100)] (Int 100));
    [reflexivity | reflexivity | vm_compute; reflexivity | simpl; lia].
Defined.
